(** * Morse tilt messenger (examples/main_project/src/main.c)

    A shallow embedding of the interrupt handler and of one iteration of each
    periodic task of [main.c], followed by the properties of the message
    buffers, the debouncer and the state machine.  The button handler of the
    calibration tool (imu_data_collector/main.c) is embedded in
    [Collector].

    Conventions.
    - One invocation of [button_handler] and one iteration of a task loop
      are atomic steps of the model; the trailing [vTaskDelay] of each loop
      is the boundary between two steps.
    - A C array is a [list ascii] of the declared length.  A write outside
      the array, and [strlen]/[printf("%s")] on an array holding no null
      character, are undefined in C: the model returns [None] there.
    - [uint16_t] and [uint32_t] variables are [Z] with the wrap-around of
      each operation written out. *)

From Stdlib Require Import ZArith Ascii String List Bool Lia Sorted.
From stdpp Require Import base decidable option list strings.
Import ListNotations.

Local Open Scope Z_scope.
Local Open Scope char_scope.

(** ** Constants of main.c *)

Definition MESSAGE_BUFFER_SIZE : Z := 2048.
Definition RECEIVED_BUFFER_SIZE : Z := 128.
Definition DEBOUNCE_MS : Z := 200.
Definition WORD_LENGTH : Z := 4.

(** FreeRTOS' [pdPASS] (projdefs.h: [pdPASS] is [pdTRUE], which is 1). *)
Definition pdPASS : Z := 1.

Definition NUL : ascii := "000".
Definition LF : ascii := "010".

(** ** Machine integers *)

Definition u16 (z : Z) : Z := z mod 65536.
Definition u32 (z : Z) : Z := z mod 4294967296.

(** ** Data model *)

Inductive tilt_state := TILT_LEFT | TILT_MIDDLE | TILT_RIGHT | TILT_UNKNOWN.

Inductive state := IDLE | RECORDING | SENDING | RECEIVING | DISPLAY_UPDATE.

(** Modelled from the spec: the pin macros [BUTTON1] and [BUTTON2] come from
    tkjhat/sdk.h, which is not among the sources.  The spec gives two
    independent falling-edge sources, so the two pins are distinct values;
    [OTHER_GPIO] stands for any other line the callback could be called
    for. *)
Inductive gpio_pin := BUTTON1 | BUTTON2 | OTHER_GPIO.

#[global] Instance tilt_state_eq_dec : EqDecision tilt_state.
Proof. solve_decision. Defined.
#[global] Instance state_eq_dec : EqDecision state.
Proof. solve_decision. Defined.
#[global] Instance gpio_pin_eq_dec : EqDecision gpio_pin.
Proof. solve_decision. Defined.

(** The globals of main.c. *)
Record sys := Sys {
  system_state : state;
  current_tilt : tilt_state;
  message_buffer : list ascii;
  message_index : Z;
  last_button_time : Z;
  received_buffer : list ascii;
  received_index : Z
}.

Definition set_system_state (v : state) (s : sys) : sys :=
  Sys v (current_tilt s) (message_buffer s) (message_index s)
      (last_button_time s) (received_buffer s) (received_index s).
Definition set_current_tilt (v : tilt_state) (s : sys) : sys :=
  Sys (system_state s) v (message_buffer s) (message_index s)
      (last_button_time s) (received_buffer s) (received_index s).
Definition set_message_buffer (v : list ascii) (s : sys) : sys :=
  Sys (system_state s) (current_tilt s) v (message_index s)
      (last_button_time s) (received_buffer s) (received_index s).
Definition set_message_index (v : Z) (s : sys) : sys :=
  Sys (system_state s) (current_tilt s) (message_buffer s) v
      (last_button_time s) (received_buffer s) (received_index s).
Definition set_last_button_time (v : Z) (s : sys) : sys :=
  Sys (system_state s) (current_tilt s) (message_buffer s) (message_index s)
      v (received_buffer s) (received_index s).
Definition set_received_buffer (v : list ascii) (s : sys) : sys :=
  Sys (system_state s) (current_tilt s) (message_buffer s) (message_index s)
      (last_button_time s) v (received_index s).
Definition set_received_index (v : Z) (s : sys) : sys :=
  Sys (system_state s) (current_tilt s) (message_buffer s) (message_index s)
      (last_button_time s) (received_buffer s) v.

(** Calls into the display, the buzzer, the console and the kernel, in the
    order a task makes them. *)
Inductive io :=
| printf (text : list ascii)
| clear_display
| write_text (text : list ascii)
| buzzer_play_tone (freq duration : Z)
| sleep_ms (ms : Z)
| vTaskDelay_ms (ms : Z).

(** ** Arrays and C strings *)

(** [buf[i] = c] *)
Definition store (buf : list ascii) (i : Z) (c : ascii) : option (list ascii) :=
  if decide (0 <= i < Z.of_nat (length buf))
  then Some (<[Z.to_nat i := c]> buf)
  else None.

(** The string a [char*] denotes: the characters before the first null. *)
Fixpoint cstr (buf : list ascii) : option (list ascii) :=
  match buf with
  | [] => None
  | c :: rest => if decide (c = NUL) then Some [] else cons c <$> cstr rest
  end.

(** [message_buffer[message_index] = c] *)
Definition put_message (c : ascii) (s : sys) : option sys :=
  buf ← store (message_buffer s) (message_index s) c;
  Some (set_message_buffer buf s).

(** [message_index++] *)
Definition inc_message_index (s : sys) : sys :=
  set_message_index (u16 (message_index s + 1)) s.

(** [received_buffer[received_index] = c] *)
Definition put_received (c : ascii) (s : sys) : option sys :=
  buf ← store (received_buffer s) (received_index s) c;
  Some (set_received_buffer buf s).

(** [received_index++] *)
Definition inc_received_index (s : sys) : sys :=
  set_received_index (u16 (received_index s + 1)) s.

(** ** button_handler (main.c, lines 61-116) *)

(** The debounce test of lines 65-68, [now] being the milliseconds since
    boot of the absolute clock and [to_ms_since_boot] its [uint32_t]
    reading. *)
Definition to_ms_since_boot (now : Z) : Z := u32 now.

Definition debounced (now : Z) (s : sys) : bool :=
  bool_decide (u32 (to_ms_since_boot now - last_button_time s) < DEBOUNCE_MS).

Definition button_handler (gpio : gpio_pin) (now : Z) (s : sys) : option sys :=
  let current_time := to_ms_since_boot now in
  if debounced now s then Some s
  else
    let s := set_last_button_time current_time s in
    if decide (gpio = BUTTON2) then
      let s := if decide (system_state s = IDLE)
               then set_system_state RECORDING s else s in
      if decide (system_state s = RECORDING
                 /\ message_index s < MESSAGE_BUFFER_SIZE - WORD_LENGTH)
      then
        s ← match current_tilt s with
            | TILT_LEFT => inc_message_index <$> put_message "." s
            | TILT_MIDDLE => inc_message_index <$> put_message " " s
            | TILT_RIGHT => inc_message_index <$> put_message "-" s
            | TILT_UNKNOWN => Some s
            end;
        put_message NUL s
      else Some s
    else if decide (gpio = BUTTON1 /\ system_state s = RECORDING) then
      if decide (message_index s > 0
                 /\ message_index s < MESSAGE_BUFFER_SIZE - 3)
      then
        s ← inc_message_index <$> put_message " " s;
        s ← inc_message_index <$> put_message " " s;
        s ← inc_message_index <$> put_message LF s;
        s ← put_message NUL s;
        Some (set_system_state SENDING s)
      else Some s
    else Some s.

(** ** imu_task, one iteration of the loop (lines 138-154)

    The set-up of the sensor before the loop either succeeds or deletes
    the task, in which case no iteration ever runs. *)

(** The sensor hands back floats; the loop only looks at the outcome of the
    two comparisons of [ax] with the thresholds, which is what a sample
    carries here. *)
Record imu_sample := ImuSample {
  ax_lt_left : bool;   (* ax < TILT_LEFT_THRESHOLD *)
  ax_gt_right : bool   (* ax > TILT_RIGHT_THRESHOLD *)
}.

Definition text (s : string) : list ascii := list_ascii_of_string s.

Definition imu_task (rd : option imu_sample) (s : sys) : sys * list io :=
  if decide (system_state s = RECORDING) then
    match rd with
    | Some r =>
        (set_current_tilt
           (if ax_lt_left r then TILT_LEFT
            else if ax_gt_right r then TILT_RIGHT
            else TILT_MIDDLE) s, [])
    | None => (s, [printf (text "ERROR: Failed to read sensor" ++ [LF])])
    end
  else (s, []).

(** ** receiver_task, one iteration (lines 158-179) *)

(** [ch] is the result of [getchar_timeout_us(0)]: [None] stands for
    [PICO_ERROR_TIMEOUT]. *)
Definition receiver_task (ch : option ascii) (s : sys) : option sys :=
  match ch with
  | None => Some s
  | Some c =>
      if decide (system_state s = IDLE \/ system_state s = RECEIVING) then
        let s := set_system_state RECEIVING s in
        s ← (if decide (received_index s < 127 /\ c <> LF) then
               s ← inc_received_index <$> put_received c s;
               put_received NUL s
             else Some s);
        Some (if decide (c = LF) then set_system_state DISPLAY_UPDATE s else s)
      else Some s
  end.

(** ** display_task, one iteration (lines 183-216) *)

Definition morse_playback (c : ascii) : list io :=
  if decide (c = ".") then [buzzer_play_tone 1000 100; sleep_ms 100]
  else if decide (c = "-") then [buzzer_play_tone 1000 300; sleep_ms 100]
  else if decide (c = " ") then [sleep_ms 700]
  else [].

Definition display_task (s : sys) : option (sys * list io) :=
  if decide (system_state s = DISPLAY_UPDATE) then
    shown ← cstr (received_buffer s);
    let s := set_received_index 0 s in
    buf ← store (received_buffer s) 0 NUL;
    let s := set_received_buffer buf s in
    Some (set_system_state IDLE s,
          [clear_display; write_text shown]
            ++ flat_map morse_playback shown
            ++ [vTaskDelay_ms 1500])
  else Some (s, []).

(** ** sender_task, one iteration (lines 220-233) *)

Definition sender_task (s : sys) : option (sys * list io) :=
  if decide (system_state s = SENDING) then
    line ← cstr (message_buffer s);
    let s := set_message_index 0 s in
    buf ← store (message_buffer s) 0 NUL;
    let s := set_message_buffer buf s in
    Some (set_system_state IDLE s,
          [printf line; clear_display; write_text (text "Msg sent!")])
  else Some (s, []).

(** ** main (lines 236-340) *)

(** Objects with static storage start zeroed; [main] then terminates both
    buffers and resets both cursors. *)
Definition init_state : sys :=
  Sys IDLE TILT_UNKNOWN
      (replicate (Z.to_nat MESSAGE_BUFFER_SIZE) NUL) 0
      0
      (replicate (Z.to_nat RECEIVED_BUFFER_SIZE) NUL) 0.

Record boot := Boot {
  boot_state : sys;
  boot_log : list io;
  scheduler_started : bool
}.

(** [main] as a function of what the four [xTaskCreate] calls return:
    [result] (IMU), [result_r] (RECEIVER), [result_d] (DISPLAY) and
    [result_s] (SENDER).  [usb_polls] is the number of times
    [stdio_usb_connected()] answers false in the loop of lines 240-242
    before it answers true; with a host that never connects [main] stays
    in that loop and creates no task, which is no value of this
    function. *)
Definition main (usb_polls : nat) (result result_r result_d result_s : Z)
  : boot :=
  let log := replicate usb_polls (sleep_ms 100)
               ++ [printf (text "Starting..." ++ [LF]); sleep_ms 300;
                   clear_display; write_text (text "LCD is OK")] in
  if decide (result <> pdPASS \/ result_r <> pdPASS \/ result_d <> pdPASS)
  then Boot init_state
            (log ++ [printf (text "Task creation failed" ++ [LF])]) false
  else Boot init_state log true.

(** ** The system as a transition system *)

Inductive event :=
| EButton (gpio : gpio_pin) (now : Z)
| EImu (rd : option imu_sample)
| EReceiver (ch : option ascii)
| EDisplay
| ESender.

Definition step (e : event) (s : sys) : option (sys * list io) :=
  match e with
  | EButton gpio now => (fun s' => (s', [])) <$> button_handler gpio now s
  | EImu rd => Some (imu_task rd s)
  | EReceiver ch => (fun s' => (s', [])) <$> receiver_task ch s
  | EDisplay => display_task s
  | ESender => sender_task s
  end.

Fixpoint run (es : list event) (s : sys) : option (sys * list io) :=
  match es with
  | [] => Some (s, [])
  | e :: rest =>
      '(s1, out1) ← step e s;
      '(s2, out2) ← run rest s1;
      Some (s2, out1 ++ out2)
  end.

(** The states reached from boot by whole handler invocations and whole
    task iterations, one after the other.  On the device the button
    handler is an interrupt and can also fall inside an iteration of a
    task (between the test of line 162 and the write of line 163, say);
    such overlapping executions are not runs of [step]. *)
Inductive reachable : sys -> Prop :=
| reachable_init : reachable init_state
| reachable_step e s s' out :
    reachable s -> step e s = Some (s', out) -> reachable s'.

(** The characters a cursor delimits. *)
Definition outbound (s : sys) : list ascii :=
  take (Z.to_nat (message_index s)) (message_buffer s).
Definition inbound (s : sys) : list ascii :=
  take (Z.to_nat (received_index s)) (received_buffer s).

(** The symbol table of the spec (External interfaces: LEFT is a dot,
    MIDDLE a space, RIGHT a dash); UNKNOWN contributes nothing. *)
Definition symbol_of_tilt (t : tilt_state) : list ascii :=
  match t with
  | TILT_LEFT => ["."]
  | TILT_MIDDLE => [" "]
  | TILT_RIGHT => ["-"]
  | TILT_UNKNOWN => []
  end.

(** The three characters a Finalize edge appends. *)
Definition terminator : list ascii := [" "; " "; LF].

(** Everything but the outbound buffer and its cursor. *)
Definition same_rest (s s' : sys) : Prop :=
  system_state s' = system_state s
  /\ current_tilt s' = current_tilt s
  /\ last_button_time s' = last_button_time s
  /\ received_buffer s' = received_buffer s
  /\ received_index s' = received_index s.

(** ** The invariant of the two buffers *)

Definition is_symbol (c : ascii) : Prop := c = "." \/ c = " " \/ c = "-".

Definition inv (s : sys) : Prop :=
  Z.of_nat (length (message_buffer s)) = MESSAGE_BUFFER_SIZE
  /\ Z.of_nat (length (received_buffer s)) = RECEIVED_BUFFER_SIZE
  /\ 0 <= received_index s
  /\ received_buffer s !! Z.to_nat (received_index s) = Some NUL
  /\ 0 <= message_index s
  /\ message_buffer s !! Z.to_nat (message_index s) = Some NUL
  /\ match system_state s with
     | RECORDING =>
         message_index s <= MESSAGE_BUFFER_SIZE - WORD_LENGTH
         /\ Forall is_symbol (outbound s)
     | SENDING =>
         exists syms, outbound s = syms ++ terminator
                      /\ Forall is_symbol syms /\ syms <> []
     | _ => message_index s = 0
     end.

(** ** Runs of edges and of received characters *)

(** A Symbol edge that finds the classifier's last result to be [e.1], at
    clock [e.2]. *)
Definition symbol_edge (e : tilt_state * Z) (s : sys) : option sys :=
  button_handler BUTTON2 e.2 (set_current_tilt e.1 s).

Fixpoint symbol_edges (es : list (tilt_state * Z)) (s : sys) : option sys :=
  match es with
  | [] => Some s
  | e :: rest => s' ← symbol_edge e s; symbol_edges rest s'
  end.

(** The tilt classes at the edges that pass the test of line 66, [last]
    being [last_button_time] before the first edge. *)
Fixpoint accepted_tilts (last : Z) (es : list (tilt_state * Z))
  : list tilt_state :=
  match es with
  | [] => []
  | (t, now) :: rest =>
      if bool_decide (u32 (to_ms_since_boot now - last) < DEBOUNCE_MS)
      then accepted_tilts last rest
      else t :: accepted_tilts (to_ms_since_boot now) rest
  end.

(** Every edge of [times] passes the test of line 66. *)
Fixpoint all_accepted (last : Z) (times : list Z) : bool :=
  match times with
  | [] => true
  | now :: rest =>
      negb (bool_decide (u32 (to_ms_since_boot now - last) < DEBOUNCE_MS))
      && all_accepted (to_ms_since_boot now) rest
  end.

(** Button edges in the order they occur; the flags tell which of them
    got past the debounce test. *)
Fixpoint press_all (es : list (gpio_pin * Z)) (s : sys)
  : option (list bool * sys) :=
  match es with
  | [] => Some ([], s)
  | (gpio, now) :: rest =>
      s1 ← button_handler gpio now s;
      '(flags, s2) ← press_all rest s1;
      Some (negb (debounced now s) :: flags, s2)
  end.

(** The receiver is handed one character per iteration. *)
Fixpoint receive_all (cs : list ascii) (s : sys) : option sys :=
  match cs with
  | [] => Some s
  | c :: rest => s' ← receiver_task (Some c) s; receive_all rest s'
  end.

(** ** States and sessions used as examples *)

(** RECORDING has just been entered and nothing is recorded yet. *)
Definition recording_start : sys := set_system_state RECORDING init_state.

(** One dot has been recorded at clock 1000. *)
Definition one_dot : sys :=
  Sys RECORDING TILT_LEFT
      ("." :: replicate (Z.to_nat MESSAGE_BUFFER_SIZE - 1) NUL) 1
      1000
      (replicate (Z.to_nat RECEIVED_BUFFER_SIZE) NUL) 0.

Definition tilted_left : option imu_sample := Some (ImuSample true false).

(** A first message of one dot is recorded, finalized and sent. *)
Definition first_session : list event :=
  [EButton BUTTON2 1000; EImu tilted_left; EButton BUTTON2 2000;
   EButton BUTTON1 3000; ESender].

(** The dot of [first_session] finalized at clock 3000, before the sender
    runs. *)
Definition dot_finalized : sys :=
  Sys SENDING TILT_LEFT
      ("." :: " " :: " " :: LF :: replicate (Z.to_nat MESSAGE_BUFFER_SIZE - 4) NUL)
      4 3000
      (replicate (Z.to_nat RECEIVED_BUFFER_SIZE) NUL) 0.

(** What [first_session] leaves behind: IDLE again, the classifier's last
    result still LEFT. *)
Definition idle_tilted : sys :=
  Sys IDLE TILT_LEFT
      (NUL :: " " :: " " :: LF :: replicate (Z.to_nat MESSAGE_BUFFER_SIZE - 4) NUL)
      0 3000
      (replicate (Z.to_nat RECEIVED_BUFFER_SIZE) NUL) 0.

(** A long message: the first press only enters RECORDING (the tilt is
    still unknown), 126 dots follow, then the Finalize edge. *)
Definition long_session : list event :=
  [EButton BUTTON2 1000; EImu tilted_left]
    ++ map (fun k => EButton BUTTON2 (2000 + 1000 * Z.of_nat k)) (seq 0 126)
    ++ [EButton BUTTON1 200000].

(** ** The transitions of the state machine *)

(** Which step can take [system_state] from one value to a different one. *)
Inductive transition : state -> event -> state -> Prop :=
| tr_record now : transition IDLE (EButton BUTTON2 now) RECORDING
| tr_finalize now : transition RECORDING (EButton BUTTON1 now) SENDING
| tr_sent : transition SENDING ESender IDLE
| tr_receive c : c <> LF -> transition IDLE (EReceiver (Some c)) RECEIVING
| tr_line_idle : transition IDLE (EReceiver (Some LF)) DISPLAY_UPDATE
| tr_line : transition RECEIVING (EReceiver (Some LF)) DISPLAY_UPDATE
| tr_shown : transition DISPLAY_UPDATE EDisplay IDLE.

(** A step that is not a successful classification of the sensor. *)
Definition sensorless (e : event) : Prop :=
  match e with
  | EImu (Some _) => False
  | _ => True
  end.

(** What the renderer does for the character a tilt class stands for. *)
Definition tilt_playback (t : tilt_state) : list io :=
  match t with
  | TILT_LEFT => [buzzer_play_tone 1000 100; sleep_ms 100]
  | TILT_RIGHT => [buzzer_play_tone 1000 300; sleep_ms 100]
  | TILT_MIDDLE => [sleep_ms 700]
  | TILT_UNKNOWN => []
  end.

(** ** The invariant of the inbound buffer *)

(** No line feed is stored, the cursor stops at 127, and the buffer is
    empty unless a line is being received or shown. *)
Definition inbound_ok (s : sys) : Prop :=
  Forall (fun c => c <> LF) (inbound s)
  /\ received_index s <= 127
  /\ (system_state s <> RECEIVING -> system_state s <> DISPLAY_UPDATE ->
      received_index s = 0).

(** A dot, a null character and a line feed have been received. *)
Definition dot_null_received : sys :=
  set_system_state DISPLAY_UPDATE
    (set_received_index 2
       (set_received_buffer ("." :: NUL :: replicate 126 NUL) init_state)).

(** ** The calibration tool (imu_data_collector/main.c)

    Its [button_handler] only passes the floats of a sensor reading on to
    [printf] and compares [ax] with the two thresholds, so the floats are
    an arbitrary type with its "less than".  A [printf] call is recorded
    with its format and its arguments. *)
Module Collector.
Record float_ops := FloatOps {
  float : Type;
  flt : float -> float -> bool;      (* a < b *)
  minus_0_3 : float;                 (* -0.3f *)
  plus_0_3 : float                   (* 0.3f *)
}.

Section Floats.
Variable F : float_ops.

Record reading := Reading {
  ax : float F; ay : float F; az : float F;
  gx : float F; gy : float F; gz : float F;
  temp : float F
}.

Record globals := Globals {
  last_button_time : Z;
  sample_count : Z
}.

Inductive arg := arg_ulong (n : Z) | arg_double (x : float F).

Inductive call :=
| printf (format : list ascii) (args : list arg)
| fflush_stdout.

Definition DEBOUNCE_MS : Z := 300.

Definition csv_format : list ascii :=
  text "%lu, %.4f, %.4f, %.4f, %.4f, %.4f, %.4f, %.2f" ++ [LF].
Definition sample_format : list ascii :=
  text "# Sample %lu: ax=%.3f | Position hint: ".
Definition error_text : list ascii :=
  ["226"; "156"; "151"] ++ text " ERROR: Failed to read IMU data" ++ [LF].

(** [button_handler] (lines 58-96): [now] is the clock at line 63, [rd]
    what [ICM42670_read_sensor_data] delivers ([None] for a non-zero
    return), [now2] the clock at line 74. *)
Definition button_handler (now : Z) (rd : option reading) (now2 : Z)
    (g : globals) : globals * list call :=
  let current_time := to_ms_since_boot now in
  if bool_decide (u32 (current_time - last_button_time g) < DEBOUNCE_MS)
  then (g, [])
  else
    let g := Globals current_time (sample_count g) in
    match rd with
    | Some r =>
        let timestamp := to_ms_since_boot now2 in
        let g := Globals (last_button_time g) (u32 (sample_count g + 1)) in
        (g,
         [printf csv_format
            [arg_ulong timestamp; arg_double (ax r); arg_double (ay r);
             arg_double (az r); arg_double (gx r); arg_double (gy r);
             arg_double (gz r); arg_double (temp r)];
          printf sample_format [arg_ulong (sample_count g); arg_double (ax r)];
          (if flt F (ax r) (minus_0_3 F) then printf (text "TILTED LEFT" ++ [LF]) []
           else if flt F (plus_0_3 F) (ax r)
                then printf (text "TILTED RIGHT" ++ [LF]) []
                else printf (text "MIDDLE" ++ [LF]) []);
          printf [LF] [];
          fflush_stdout])
    | None => (g, [printf error_text []])
    end.

(** Button presses in the order they occur. *)
Fixpoint press_all (ps : list (Z * option reading * Z)) (g : globals)
  : globals * list call :=
  match ps with
  | [] => (g, [])
  | (now, rd, now2) :: rest =>
      let '(g1, out1) := button_handler now rd now2 g in
      let '(g2, out2) := press_all rest g1 in
      (g2, out1 ++ out2)
  end.

(** The sample numbers printed, in order. *)
Definition sample_numbers (out : list call) : list Z :=
  flat_map (fun c =>
              match c with
              | printf format (arg_ulong n :: _) =>
                  if decide (format = sample_format) then [n] else []
              | _ => []
              end) out.

(** The CSV rows printed. *)
Definition csv_rows (out : list call) : list call :=
  flat_map (fun c =>
              match c with
              | printf format _ =>
                  if decide (format = csv_format) then [c] else []
              | fflush_stdout => []
              end) out.
End Floats.
End Collector.

(** The presses of [ps] that get past the debounce test of line 66 and
    whose sensor read succeeds, with the clock read at line 74; [last] is
    [last_button_time] before the first press. *)
Fixpoint collector_sampled (F : Collector.float_ops) (last : Z)
    (ps : list (Z * option (Collector.reading F) * Z))
  : list (Z * Collector.reading F) :=
  match ps with
  | [] => []
  | (now, rd, now2) :: rest =>
      if bool_decide (u32 (to_ms_since_boot now - last) < Collector.DEBOUNCE_MS)
      then collector_sampled F last rest
      else match rd with
           | Some r =>
               (to_ms_since_boot now2, r)
                 :: collector_sampled F (to_ms_since_boot now) rest
           | None => collector_sampled F (to_ms_since_boot now) rest
           end
  end.

(** The CSV row of a sample: its timestamp and the seven values read. *)
Definition collector_csv_row (F : Collector.float_ops)
    (x : Z * Collector.reading F) : Collector.call F :=
  Collector.printf F Collector.csv_format
    [Collector.arg_ulong F x.1;
     Collector.arg_double F (Collector.ax F x.2);
     Collector.arg_double F (Collector.ay F x.2);
     Collector.arg_double F (Collector.az F x.2);
     Collector.arg_double F (Collector.gx F x.2);
     Collector.arg_double F (Collector.gy F x.2);
     Collector.arg_double F (Collector.gz F x.2);
     Collector.arg_double F (Collector.temp F x.2)].

(** Integers, in tenths of the unit, in the place of floats: enough to run
    the calibration tool on examples. *)
Definition tenths : Collector.float_ops := Collector.FloatOps Z Z.ltb (-3) 3.

(** A reading with the device tilted to the left. *)
Definition left_reading : Collector.reading tenths :=
  Collector.Reading tenths (-5) 0 10 0 0 0 250.

(** Four presses: a sample, a press within the window, a failed read,
    another sample. *)
Definition four_presses : list (Z * option (Collector.reading tenths) * Z) :=
  [(1000, Some left_reading, 1001); (1100, Some left_reading, 1101);
   (1500, None, 1500); (2000, Some left_reading, 2002)].

(** * Arrays *)

Lemma store_in_bounds (buf : list ascii) i c :
  0 <= i < Z.of_nat (length buf) ->
  store buf i c = Some (<[Z.to_nat i := c]> buf).
Proof. intros Hi. unfold store. case_decide; [done | lia]. Qed.

Lemma store_is_Some (buf buf' : list ascii) i c :
  store buf i c = Some buf' ->
  0 <= i < Z.of_nat (length buf) /\ buf' = <[Z.to_nat i := c]> buf.
Proof. unfold store. case_decide; intros ?; by simplify_eq. Qed.

Lemma take_snoc_insert (buf : list ascii) (n : nat) c :
  (n < length buf)%nat -> take (S n) (<[n := c]> buf) = take n buf ++ [c].
Proof.
  intros H.
  rewrite (take_S_r _ _ c) by (by apply list_lookup_insert_eq).
  by rewrite take_insert_ge.
Qed.

Lemma take_take_app (n : nat) (a b : list ascii) :
  take n (take n a ++ b) = take n (a ++ b).
Proof.
  destruct (decide (n <= length a)%nat) as [H|H].
  - rewrite (take_app_le a) by done.
    rewrite take_app_le by (rewrite length_take; lia).
    apply take_idemp.
  - by rewrite (take_ge a) by lia.
Qed.

Lemma cstr_prefix (pre rest : list ascii) :
  Forall (fun c => c <> NUL) pre -> cstr (pre ++ NUL :: rest) = Some pre.
Proof.
  induction 1 as [|c pre Hc _ IH]; cbn [app cstr].
  - by rewrite decide_True.
  - rewrite decide_False by done. by rewrite IH.
Qed.

(** A terminated array denotes the characters before its cursor when none
    of them is null. *)
Lemma cstr_take (buf : list ascii) (n : nat) :
  buf !! n = Some NUL -> Forall (fun c => c <> NUL) (take n buf) ->
  cstr buf = Some (take n buf).
Proof.
  intros Hn Hpre.
  rewrite <- (take_drop n buf) at 1.
  rewrite (drop_S _ _ _ Hn). by apply cstr_prefix.
Qed.

(** * The outbound buffer: appending and terminating *)

Lemma append_message c s :
  0 <= message_index s < Z.of_nat (length (message_buffer s)) ->
  message_index s < 65535 ->
  exists s',
    inc_message_index <$> put_message c s = Some s'
    /\ message_index s' = message_index s + 1
    /\ outbound s' = outbound s ++ [c]
    /\ length (message_buffer s') = length (message_buffer s)
    /\ same_rest s s'.
Proof.
  intros Hi Hw. unfold put_message.
  rewrite store_in_bounds by done. simpl.
  eexists; split; [reflexivity|].
  unfold outbound, inc_message_index, same_rest, u16; simpl.
  rewrite Z.mod_small by lia.
  replace (Z.to_nat (message_index s + 1))
    with (S (Z.to_nat (message_index s))) by lia.
  rewrite take_snoc_insert by lia.
  by rewrite length_insert.
Qed.

Lemma terminate_message s :
  0 <= message_index s < Z.of_nat (length (message_buffer s)) ->
  exists s',
    put_message NUL s = Some s'
    /\ message_index s' = message_index s
    /\ outbound s' = outbound s
    /\ message_buffer s' !! Z.to_nat (message_index s') = Some NUL
    /\ length (message_buffer s') = length (message_buffer s)
    /\ same_rest s s'.
Proof.
  intros Hi. unfold put_message.
  rewrite store_in_bounds by done. simpl.
  eexists; split; [reflexivity|].
  unfold outbound, same_rest; simpl.
  rewrite take_insert_ge by lia.
  rewrite list_lookup_insert_eq by lia.
  by rewrite length_insert.
Qed.

(** * The inbound buffer *)

Lemma append_received c s :
  0 <= received_index s -> received_index s + 1 < Z.of_nat (length (received_buffer s)) ->
  received_index s < 65535 ->
  exists s',
    (s1 ← inc_received_index <$> put_received c s; put_received NUL s1) = Some s'
    /\ received_index s' = received_index s + 1
    /\ inbound s' = inbound s ++ [c]
    /\ received_buffer s' !! Z.to_nat (received_index s') = Some NUL
    /\ length (received_buffer s') = length (received_buffer s)
    /\ system_state s' = system_state s
    /\ current_tilt s' = current_tilt s
    /\ last_button_time s' = last_button_time s
    /\ message_buffer s' = message_buffer s
    /\ message_index s' = message_index s.
Proof.
  intros H0 Hi Hw. unfold put_received at 2.
  rewrite store_in_bounds by lia. simpl.
  unfold put_received, inc_received_index, u16; simpl.
  rewrite Z.mod_small by lia.
  rewrite store_in_bounds by (rewrite length_insert; lia). simpl.
  eexists; split; [reflexivity|].
  unfold inbound; simpl.
  replace (Z.to_nat (received_index s + 1))
    with (S (Z.to_nat (received_index s))) by lia.
  rewrite take_insert_ge by lia.
  rewrite take_snoc_insert by lia.
  rewrite list_lookup_insert_eq by (rewrite length_insert; lia).
  by rewrite !length_insert.
Qed.

(** * button_handler, case by case *)

Lemma button_debounced gpio now s :
  debounced now s = true -> button_handler gpio now s = Some s.
Proof. intros H. unfold button_handler. by rewrite H. Qed.

Lemma put_message_frame c s s' :
  put_message c s = Some s' ->
  message_index s' = message_index s /\ same_rest s s'.
Proof.
  unfold put_message. intros H.
  destruct (store _ _ _); simplify_eq/=. by unfold same_rest.
Qed.

(** The handler touches neither the tilt nor the inbound buffer. *)
Lemma button_handler_frame gpio now s s' :
  button_handler gpio now s = Some s' ->
  current_tilt s' = current_tilt s
  /\ received_buffer s' = received_buffer s
  /\ received_index s' = received_index s.
Proof.
  unfold button_handler. destruct (debounced now s); [naive_solver|].
  cbn zeta. intros H.
  repeat case_decide; try destruct (current_tilt _) eqn:Ht;
    repeat match goal with
      | H : (_ ≫= _) = Some _ |- _ =>
          apply bind_Some in H; destruct H as (? & ? & H)
      | H : _ <$> _ = Some _ |- _ =>
          apply fmap_Some in H; destruct H as (? & H & ->)
      | H : put_message _ _ = Some _ |- _ =>
          apply put_message_frame in H; destruct H as (? & ? & ? & ? & ? & ?)
      end;
    simplify_eq/=; repeat split; congruence.
Qed.

(** An accepted Symbol edge with room left: IDLE or RECORDING. *)
Lemma symbol_edge_live now s :
  debounced now s = false ->
  system_state s = IDLE \/ system_state s = RECORDING ->
  0 <= message_index s < MESSAGE_BUFFER_SIZE - WORD_LENGTH ->
  Z.of_nat (length (message_buffer s)) = MESSAGE_BUFFER_SIZE ->
  exists s',
    button_handler BUTTON2 now s = Some s'
    /\ system_state s' = RECORDING
    /\ outbound s' = outbound s ++ symbol_of_tilt (current_tilt s)
    /\ message_index s'
       = message_index s + Z.of_nat (length (symbol_of_tilt (current_tilt s)))
    /\ message_buffer s' !! Z.to_nat (message_index s') = Some NUL
    /\ length (message_buffer s') = length (message_buffer s)
    /\ last_button_time s' = to_ms_since_boot now.
Proof.
  intros Hd Hst [Hlo Hhi] Hlen.
  unfold button_handler. rewrite Hd. cbn zeta.
  unfold MESSAGE_BUFFER_SIZE, WORD_LENGTH in *.
  rewrite decide_True by done.
  set (s0 := set_last_button_time _ s).
  set (s1 := if decide (system_state s0 = IDLE) then _ else s0).
  assert (H1 : system_state s1 = RECORDING
               /\ message_index s1 = message_index s
               /\ message_buffer s1 = message_buffer s
               /\ current_tilt s1 = current_tilt s
               /\ last_button_time s1 = to_ms_since_boot now).
  { subst s1 s0. case_decide; simpl in *; destruct Hst; by repeat split. }
  destruct H1 as (Hs1 & Hi1 & Hb1 & Ht1 & Hl1).
  rewrite decide_True by (split; [done | lia]).
  rewrite Ht1.
  assert (Hout1 : outbound s1 = outbound s)
    by (unfold outbound; by rewrite Hi1, Hb1).
  destruct (current_tilt s) eqn:Ht; cbn [symbol_of_tilt];
    [ destruct (append_message "." s1) as (s2 & -> & Hi2 & Ho2 & Hlen2 & Hr2)
    | destruct (append_message " " s1) as (s2 & -> & Hi2 & Ho2 & Hlen2 & Hr2)
    | destruct (append_message "-" s1) as (s2 & -> & Hi2 & Ho2 & Hlen2 & Hr2)
    | ]; try (rewrite ?Hi1, ?Hb1; lia); cbn [mbind option_bind].
  1-3: destruct (terminate_message s2)
         as (s3 & -> & Hi3 & Ho3 & Hn3 & Hlen3 & Hr3);
       [ rewrite Hi2, Hlen2, Hi1, Hb1; lia | ];
       destruct Hr2 as (? & ? & ? & ? & ?), Hr3 as (? & ? & ? & ? & ?);
       eexists; split; [reflexivity|];
       rewrite Ho3, Ho2, Hout1, Hi3, Hi2, Hi1, Hlen3, Hlen2, Hb1;
       simpl; repeat split; congruence.
  destruct (terminate_message s1)
    as (s3 & -> & Hi3 & Ho3 & Hn3 & Hlen3 & Hr3);
    [ rewrite Hi1, Hb1; lia | ].
  destruct Hr3 as (? & ? & ? & ? & ?).
  eexists; split; [reflexivity|].
  rewrite Ho3, Hout1, Hi3, Hi1, Hlen3, Hb1, app_nil_r, Z.add_0_r.
  rewrite Hi3, Hi1 in Hn3. repeat split; congruence.
Qed.

(** An accepted Symbol edge that finds the buffer full, or the system busy
    with something else than recording. *)
Lemma symbol_edge_skip now s :
  debounced now s = false ->
  ~ ((system_state s = IDLE \/ system_state s = RECORDING)
     /\ message_index s < MESSAGE_BUFFER_SIZE - WORD_LENGTH) ->
  exists s',
    button_handler BUTTON2 now s = Some s'
    /\ system_state s'
       = (if decide (system_state s = IDLE) then RECORDING else system_state s)
    /\ message_buffer s' = message_buffer s
    /\ message_index s' = message_index s
    /\ last_button_time s' = to_ms_since_boot now.
Proof.
  intros Hd Hn. unfold button_handler. rewrite Hd. cbn zeta.
  rewrite decide_True by done.
  cbn [system_state set_last_button_time].
  destruct (decide (system_state s = IDLE)) as [Hs|Hs].
  - rewrite decide_False by (cbn; intros [_ ?]; apply Hn; auto).
    eexists; split; [reflexivity|]. by cbn.
  - rewrite decide_False by (cbn; intros [? ?]; apply Hn; auto).
    eexists; split; [reflexivity|]. by cbn.
Qed.

(** An accepted Finalize edge while recording a non-empty message with room
    for the terminator. *)
Lemma finalize_edge_live now s :
  debounced now s = false ->
  system_state s = RECORDING ->
  0 < message_index s < MESSAGE_BUFFER_SIZE - 3 ->
  Z.of_nat (length (message_buffer s)) = MESSAGE_BUFFER_SIZE ->
  exists s',
    button_handler BUTTON1 now s = Some s'
    /\ system_state s' = SENDING
    /\ outbound s' = outbound s ++ terminator
    /\ message_index s' = message_index s + 3
    /\ message_buffer s' !! Z.to_nat (message_index s') = Some NUL
    /\ length (message_buffer s') = length (message_buffer s)
    /\ last_button_time s' = to_ms_since_boot now.
Proof.
  intros Hd Hst [Hlo Hhi] Hlen.
  unfold button_handler. rewrite Hd. cbn zeta.
  unfold MESSAGE_BUFFER_SIZE in *.
  rewrite decide_False by done.
  rewrite decide_True by done.
  set (s0 := set_last_button_time _ s).
  rewrite decide_True by (simpl; lia).
  destruct (append_message " " s0) as (s1 & -> & Hi1 & Ho1 & Hlen1 & Hr1);
    [simpl; lia .. |]. cbn [mbind option_bind].
  destruct (append_message " " s1) as (s2 & -> & Hi2 & Ho2 & Hlen2 & Hr2);
    [rewrite ?Hi1, ?Hlen1; simpl; lia .. |]. cbn [mbind option_bind].
  destruct (append_message LF s2) as (s3 & -> & Hi3 & Ho3 & Hlen3 & Hr3);
    [rewrite ?Hi2, ?Hlen2, ?Hi1, ?Hlen1; simpl; lia .. |].
  cbn [mbind option_bind].
  destruct (terminate_message s3) as (s4 & -> & Hi4 & Ho4 & Hn4 & Hlen4 & Hr4);
    [rewrite ?Hi3, ?Hlen3, ?Hi2, ?Hlen2, ?Hi1, ?Hlen1; simpl; lia |].
  cbn [mbind option_bind].
  destruct Hr1 as (? & ? & ? & ? & ?), Hr2 as (? & ? & ? & ? & ?),
    Hr3 as (? & ? & ? & ? & ?), Hr4 as (? & ? & ? & ? & ?).
  eexists; split; [reflexivity|]. simpl.
  unfold outbound at 1; simpl. fold (outbound s4).
  rewrite Ho4, Ho3, Ho2, Ho1, Hi4, Hi3, Hi2, Hi1, Hlen4, Hlen3, Hlen2, Hlen1.
  rewrite <- !app_assoc. simpl.
  repeat split; try congruence; try lia.
  - rewrite Hi4, Hi3, Hi2, Hi1 in Hn4. simpl in Hn4.
    by replace (message_index s + 3) with (message_index s + 1 + 1 + 1) by lia.
  - transitivity (last_button_time s0); [congruence | done].
Qed.

(** A Finalize edge in any other situation. *)
Lemma finalize_edge_skip now s :
  ~ (debounced now s = false
     /\ system_state s = RECORDING
     /\ 0 < message_index s < MESSAGE_BUFFER_SIZE - 3) ->
  exists s',
    button_handler BUTTON1 now s = Some s'
    /\ system_state s' = system_state s
    /\ message_buffer s' = message_buffer s
    /\ message_index s' = message_index s.
Proof.
  intros Hn. unfold button_handler.
  destruct (debounced now s) eqn:Hd; [by eexists|]. cbn zeta.
  rewrite decide_False by done.
  case_decide as H1; [|by eexists].
  rewrite decide_False; [by eexists|].
  simpl in *. intros [? ?]. apply Hn. repeat split; try tauto; lia.
Qed.

Lemma button_handler_other now s :
  button_handler OTHER_GPIO now s
  = Some (if debounced now s then s
          else set_last_button_time (to_ms_since_boot now) s).
Proof.
  unfold button_handler. destruct (debounced now s); [done|]. cbn zeta.
  rewrite decide_False by done. by rewrite decide_False by (by intros [? _]).
Qed.

(** * The invariant is kept by every step *)

Lemma inv_ext s s' :
  system_state s' = system_state s ->
  message_buffer s' = message_buffer s ->
  message_index s' = message_index s ->
  received_buffer s' = received_buffer s ->
  received_index s' = received_index s ->
  inv s -> inv s'.
Proof. unfold inv, outbound. by intros -> -> -> -> ->. Qed.

Lemma inv_bounds s :
  inv s ->
  0 <= message_index s < MESSAGE_BUFFER_SIZE
  /\ 0 <= received_index s < RECEIVED_BUFFER_SIZE.
Proof.
  intros (Hl & Hlr & Hr0 & Hrn & Hm0 & Hmn & _).
  apply lookup_lt_Some in Hrn, Hmn. lia.
Qed.

Lemma outbound_length s :
  0 <= message_index s <= Z.of_nat (length (message_buffer s)) ->
  Z.of_nat (length (outbound s)) = message_index s.
Proof. intros H. unfold outbound. rewrite length_take. lia. Qed.

Lemma is_symbol_not_NUL c : is_symbol c -> c <> NUL.
Proof. by intros [-> | [-> | ->]]. Qed.

Lemma symbol_of_tilt_symbols t : Forall is_symbol (symbol_of_tilt t).
Proof.
  destruct t; cbn [symbol_of_tilt];
    repeat (apply Forall_cons; split; [unfold is_symbol; auto|]);
    apply Forall_nil_2.
Qed.

Lemma cstr_is_Some (buf : list ascii) (n : nat) :
  buf !! n = Some NUL -> is_Some (cstr buf).
Proof.
  revert n. induction buf as [|c buf IH]; intros n H; [done|].
  cbn [cstr]. case_decide; [by eexists|].
  destruct n as [|n]; [by simplify_eq/=|].
  destruct (IH n H) as [r ->]. by eexists.
Qed.

(** What a sender prints for a finalized message: the characters before the
    cursor. *)
Lemma cstr_sending s :
  inv s -> system_state s = SENDING ->
  cstr (message_buffer s) = Some (outbound s).
Proof.
  intros (_ & _ & _ & _ & _ & Hn & Hst) Hs. rewrite Hs in Hst.
  destruct Hst as (syms & Ho & Hsy & _).
  apply cstr_take; [done|]. fold (outbound s). rewrite Ho.
  apply Forall_app; split.
  - eapply Forall_impl; [done|]. apply is_symbol_not_NUL.
  - by repeat constructor.
Qed.

Lemma inv_init : inv init_state.
Proof. by repeat split. Qed.

Lemma inv_button gpio now s :
  inv s -> exists s', button_handler gpio now s = Some s' /\ inv s'.
Proof.
  intros Hinv.
  destruct (debounced now s) eqn:Hd.
  { exists s. by rewrite button_debounced. }
  pose proof (inv_bounds _ Hinv) as [Hmb Hrb].
  pose proof Hinv as (Hl & Hlr & Hr0 & Hrn & Hm0 & Hmn & Hst).
  destruct gpio.
  - (* Finalize *)
    destruct (decide (system_state s = RECORDING
                      /\ 0 < message_index s < MESSAGE_BUFFER_SIZE - 3))
      as [[Hrec Hidx]|Hno].
    + destruct (finalize_edge_live now s Hd Hrec Hidx Hl)
        as (s' & E & Hs' & Ho' & Hi' & Hn' & Hl' & _).
      destruct (button_handler_frame _ _ _ _ E) as (_ & Hb & Hi).
      exists s'; split; [done|].
      rewrite Hrec in Hst. destruct Hst as [_ Hsym].
      unfold inv. rewrite Hs', Hl', Hb, Hi, Hi'.
      rewrite Hi' in Hn'. repeat split; try done; try lia.
      exists (outbound s); repeat split; try done.
      intros Hnil. pose proof (outbound_length s) as Hlen.
      rewrite Hnil in Hlen. simpl in Hlen. lia.
    + destruct (finalize_edge_skip now s) as (s' & E & Hs' & Hb' & Hi');
        [tauto|].
      destruct (button_handler_frame _ _ _ _ E) as (_ & Hb & Hi).
      exists s'; split; [done|]. by apply (inv_ext s).
  - (* Symbol *)
    destruct (decide ((system_state s = IDLE \/ system_state s = RECORDING)
                      /\ message_index s < MESSAGE_BUFFER_SIZE - WORD_LENGTH))
      as [[Hrec Hidx]|Hno].
    + destruct (symbol_edge_live now s Hd Hrec (conj Hm0 Hidx) Hl)
        as (s' & E & Hs' & Ho' & Hi' & Hn' & Hl' & _).
      destruct (button_handler_frame _ _ _ _ E) as (_ & Hb & Hi).
      exists s'; split; [done|].
      unfold inv. rewrite Hs', Hl', Hb, Hi, Ho'.
      repeat split; try done; try lia.
      * rewrite Hi'. unfold MESSAGE_BUFFER_SIZE, WORD_LENGTH in *.
        destruct (current_tilt s); simpl; lia.
      * apply Forall_app; split; [|apply symbol_of_tilt_symbols].
        destruct Hrec as [Hrec|Hrec]; rewrite Hrec in Hst.
        -- unfold outbound. rewrite Hst. constructor.
        -- by destruct Hst.
    + destruct (symbol_edge_skip now s Hd Hno) as (s' & E & Hs' & Hb' & Hi' & _).
      destruct (button_handler_frame _ _ _ _ E) as (_ & Hb & Hi).
      exists s'; split; [done|].
      destruct (decide (system_state s = IDLE)) as [Hidle|Hidle].
      * rewrite Hidle in Hst. exfalso. apply Hno.
        unfold MESSAGE_BUFFER_SIZE, WORD_LENGTH. split; [auto | lia].
      * by apply (inv_ext s).
  - rewrite button_handler_other, Hd. eexists; split; [done|].
    by apply (inv_ext s).
Qed.

(** * receiver_task, case by case *)

Lemma receiver_busy c s :
  system_state s <> IDLE -> system_state s <> RECEIVING ->
  receiver_task (Some c) s = Some s.
Proof.
  intros H1 H2. unfold receiver_task.
  by rewrite decide_False by (by intros [?|?]).
Qed.

(** A character other than the line feed, with room left. *)
Lemma receiver_stores c s :
  system_state s = IDLE \/ system_state s = RECEIVING ->
  c <> LF ->
  0 <= received_index s < 127 ->
  Z.of_nat (length (received_buffer s)) = RECEIVED_BUFFER_SIZE ->
  exists s',
    receiver_task (Some c) s = Some s'
    /\ system_state s' = RECEIVING
    /\ inbound s' = inbound s ++ [c]
    /\ received_index s' = received_index s + 1
    /\ received_buffer s' !! Z.to_nat (received_index s') = Some NUL
    /\ length (received_buffer s') = length (received_buffer s)
    /\ message_buffer s' = message_buffer s
    /\ message_index s' = message_index s.
Proof.
  intros Hst Hc Hi Hlen. unfold RECEIVED_BUFFER_SIZE in *.
  unfold receiver_task. rewrite decide_True by done. cbn zeta.
  set (s0 := set_system_state RECEIVING s).
  rewrite decide_True by (split; [simpl; lia | done]).
  destruct (append_received c s0)
    as (s1 & -> & Hi1 & Ho1 & Hn1 & Hl1 & Hs1 & _ & _ & Hb1 & Hm1);
    [simpl; lia .. |].
  cbn [mbind option_bind]. rewrite decide_False by done.
  eexists; split; [reflexivity|]. by repeat split.
Qed.

(** A character other than the line feed when the buffer is full. *)
Lemma receiver_full c s :
  system_state s = IDLE \/ system_state s = RECEIVING ->
  c <> LF ->
  ~ received_index s < 127 ->
  receiver_task (Some c) s = Some (set_system_state RECEIVING s).
Proof.
  intros Hst Hc Hi. unfold receiver_task.
  rewrite decide_True by done. cbn zeta.
  rewrite decide_False by (simpl; tauto).
  cbn [mbind option_bind]. by rewrite decide_False by done.
Qed.

(** The line feed is not stored and ends the line. *)
Lemma receiver_line_feed s :
  system_state s = IDLE \/ system_state s = RECEIVING ->
  receiver_task (Some LF) s = Some (set_system_state DISPLAY_UPDATE s).
Proof.
  intros Hst. unfold receiver_task.
  rewrite decide_True by done. cbn zeta.
  rewrite decide_False by (simpl; tauto).
  cbn [mbind option_bind]. by rewrite decide_True by done.
Qed.

Lemma inv_receiver ch s :
  inv s -> exists s', receiver_task ch s = Some s' /\ inv s'.
Proof.
  intros Hinv.
  destruct ch as [c|]; [|by exists s].
  destruct (decide (system_state s = IDLE \/ system_state s = RECEIVING))
    as [Hst|Hst].
  2: { exists s. split; [|done]. apply receiver_busy; tauto. }
  pose proof Hinv as (Hl & Hlr & Hr0 & Hrn & Hm0 & Hmn & Hinv').
  assert (Hidx : message_index s = 0) by (by destruct Hst as [E|E]; rewrite E in Hinv').
  destruct (decide (c = LF)) as [->|Hc].
  { rewrite receiver_line_feed by done. eexists; split; [done|].
    unfold inv, outbound in *; simpl. by repeat split. }
  destruct (decide (received_index s < 127)) as [Hi|Hi].
  - destruct (receiver_stores c s Hst Hc (conj Hr0 Hi) Hlr)
      as (s' & -> & Hs' & Ho' & Hi' & Hn' & Hl' & Hb' & Hm').
    eexists; split; [done|].
    unfold inv. rewrite Hs', Hl', Hb', Hm'. repeat split; try done; lia.
  - rewrite receiver_full by done. eexists; split; [done|].
    unfold inv, outbound in *; simpl. by repeat split.
Qed.

(** * The tasks that drain the buffers *)

Lemma display_task_idle s :
  system_state s <> DISPLAY_UPDATE -> display_task s = Some (s, []).
Proof. intros H. unfold display_task. by rewrite decide_False. Qed.

Lemma sender_task_idle s :
  system_state s <> SENDING -> sender_task s = Some (s, []).
Proof. intros H. unfold sender_task. by rewrite decide_False. Qed.

Lemma inv_display s :
  inv s -> exists s' out, display_task s = Some (s', out) /\ inv s'.
Proof.
  intros Hinv.
  destruct (decide (system_state s = DISPLAY_UPDATE)) as [Hst|Hst].
  2: { exists s, []. by rewrite display_task_idle. }
  pose proof Hinv as (Hl & Hlr & Hr0 & Hrn & Hm0 & Hmn & Hinv').
  rewrite Hst in Hinv'.
  unfold display_task. rewrite decide_True by done.
  destruct (cstr_is_Some _ _ Hrn) as [shown ->]. cbn [mbind option_bind].
  cbn zeta.
  rewrite store_in_bounds by (unfold RECEIVED_BUFFER_SIZE in *; simpl; lia).
  cbn [mbind option_bind].
  do 2 eexists; split; [reflexivity|].
  unfold inv, outbound, RECEIVED_BUFFER_SIZE in *; simpl.
  rewrite length_insert.
  rewrite list_lookup_insert_eq by lia.
  by repeat split.
Qed.

Lemma sender_task_sending s :
  inv s -> system_state s = SENDING ->
  exists s',
    sender_task s = Some (s', [printf (outbound s); clear_display;
                               write_text (text "Msg sent!")])
    /\ system_state s' = IDLE /\ message_index s' = 0 /\ inv s'.
Proof.
  intros Hinv Hst.
  pose proof Hinv as (Hl & Hlr & Hr0 & Hrn & Hm0 & Hmn & Hinv').
  unfold sender_task. rewrite decide_True by done.
  rewrite cstr_sending by done. cbn [mbind option_bind].
  cbn zeta.
  rewrite store_in_bounds by (unfold MESSAGE_BUFFER_SIZE in *; simpl; lia).
  cbn [mbind option_bind].
  eexists; split; [reflexivity|].
  unfold inv, outbound, MESSAGE_BUFFER_SIZE in *; simpl.
  rewrite length_insert.
  rewrite list_lookup_insert_eq by lia.
  by repeat split.
Qed.

Lemma inv_sender s :
  inv s -> exists s' out, sender_task s = Some (s', out) /\ inv s'.
Proof.
  intros Hinv.
  destruct (decide (system_state s = SENDING)) as [Hst|Hst].
  - destruct (sender_task_sending s Hinv Hst) as (s' & E & _ & _ & Hinv').
    eauto.
  - exists s, []. by rewrite sender_task_idle.
Qed.

Lemma imu_task_frame rd s :
  system_state (imu_task rd s).1 = system_state s
  /\ message_buffer (imu_task rd s).1 = message_buffer s
  /\ message_index (imu_task rd s).1 = message_index s
  /\ received_buffer (imu_task rd s).1 = received_buffer s
  /\ received_index (imu_task rd s).1 = received_index s
  /\ last_button_time (imu_task rd s).1 = last_button_time s.
Proof. unfold imu_task. case_decide; [destruct rd|]; done. Qed.

(** * Every step keeps the invariant, and no step is undefined *)

Lemma inv_step e s :
  inv s -> exists s' out, step e s = Some (s', out) /\ inv s'.
Proof.
  intros Hinv. destruct e as [gpio now|rd|ch| |]; cbn [step].
  - destruct (inv_button gpio now s Hinv) as (s' & -> & H). by exists s', [].
  - destruct (imu_task rd s) as [s' out] eqn:E. exists s', out; split; [done|].
    pose proof (imu_task_frame rd s) as (? & ? & ? & ? & ? & _).
    rewrite E in *. by apply (inv_ext s).
  - destruct (inv_receiver ch s Hinv) as (s' & -> & H). by exists s', [].
  - by apply inv_display.
  - by apply inv_sender.
Qed.

Lemma reachable_inv s : reachable s -> inv s.
Proof.
  induction 1 as [|e s s' out _ IH E]; [apply inv_init|].
  destruct (inv_step e s IH) as (s1 & out1 & E1 & H1). by simplify_eq.
Qed.

(** * Symbol edges *)

Lemma symbol_edge_accepted t now s :
  debounced now s = false ->
  system_state s = IDLE \/ system_state s = RECORDING ->
  0 <= message_index s < MESSAGE_BUFFER_SIZE - WORD_LENGTH ->
  Z.of_nat (length (message_buffer s)) = MESSAGE_BUFFER_SIZE ->
  exists s',
    symbol_edge (t, now) s = Some s'
    /\ system_state s' = RECORDING
    /\ outbound s' = outbound s ++ symbol_of_tilt t
    /\ message_index s' = message_index s + Z.of_nat (length (symbol_of_tilt t))
    /\ message_buffer s' !! Z.to_nat (message_index s') = Some NUL
    /\ length (message_buffer s') = length (message_buffer s)
    /\ last_button_time s' = to_ms_since_boot now.
Proof.
  intros Hd Hst Hi Hl.
  exact (symbol_edge_live now (set_current_tilt t s) Hd Hst Hi Hl).
Qed.

Lemma symbol_edges_content_gen es : forall s,
  system_state s = RECORDING ->
  Z.of_nat (length (message_buffer s)) = MESSAGE_BUFFER_SIZE ->
  0 <= message_index s <= MESSAGE_BUFFER_SIZE - WORD_LENGTH ->
  exists s',
    symbol_edges es s = Some s'
    /\ system_state s' = RECORDING
    /\ Z.of_nat (length (message_buffer s')) = MESSAGE_BUFFER_SIZE
    /\ 0 <= message_index s' <= MESSAGE_BUFFER_SIZE - WORD_LENGTH
    /\ outbound s'
       = take (Z.to_nat (MESSAGE_BUFFER_SIZE - WORD_LENGTH))
              (outbound s
                 ++ flat_map symbol_of_tilt
                      (accepted_tilts (last_button_time s) es))
    /\ (message_buffer s !! Z.to_nat (message_index s) = Some NUL
        \/ message_index s' <> message_index s ->
        message_buffer s' !! Z.to_nat (message_index s') = Some NUL).
Proof.
  induction es as [|[t now] rest IH]; intros s Hst Hl Hi.
  all: assert (Hlen : Z.of_nat (length (outbound s)) = message_index s)
    by (apply outbound_length;
        unfold MESSAGE_BUFFER_SIZE, WORD_LENGTH in *; lia).
  { exists s. repeat split; try done; try apply Hi.
    - cbn [accepted_tilts flat_map]. rewrite app_nil_r.
      rewrite take_ge; [done|]. lia.
    - by intros [?|?]. }
  cbn [symbol_edges accepted_tilts].
  fold (debounced now s).
  destruct (debounced now s) eqn:Hd; cbn [bool_decide].
  - (* the edge is debounced *)
    unfold symbol_edge; cbn [fst snd].
    rewrite button_debounced by done. cbn [mbind option_bind].
    destruct (IH (set_current_tilt t s) Hst Hl Hi)
      as (s' & E & Hs' & Hl' & Hi' & Ho' & Hn').
    exists s'. repeat split; try done; apply Hi'.
  - destruct (decide (message_index s < MESSAGE_BUFFER_SIZE - WORD_LENGTH))
      as [Hroom|Hfull].
    + (* accepted, and there is room *)
      destruct (symbol_edge_accepted t now s Hd (or_intror Hst)
                  (conj (proj1 Hi) Hroom) Hl)
        as (s1 & -> & Hs1 & Ho1 & Hi1 & Hn1 & Hl1 & Ht1).
      cbn [mbind option_bind].
      destruct (IH s1 Hs1) as (s' & E & Hs' & Hl' & Hi' & Ho' & Hn').
      { by rewrite Hl1. }
      { rewrite Hi1. unfold MESSAGE_BUFFER_SIZE, WORD_LENGTH in *.
        destruct t; simpl; lia. }
      exists s'. repeat split; try done; try apply Hi'.
      * rewrite Ho', Ho1, Ht1. cbn [flat_map]. by rewrite <- app_assoc.
      * intros _. apply Hn'. by left.
    + (* accepted, but the buffer is full *)
      destruct (symbol_edge_skip now (set_current_tilt t s) Hd)
        as (s1 & E1 & Hs1 & Hb1 & Hi1 & Ht1); [simpl; tauto|].
      unfold symbol_edge; cbn [fst snd]. rewrite E1.
      cbn [mbind option_bind]. simpl in Hs1, Hb1, Hi1.
      rewrite decide_False in Hs1 by (by rewrite Hst).
      destruct (IH s1) as (s' & E & Hs' & Hl' & Hi' & Ho' & Hn').
      { by rewrite Hs1. } { by rewrite Hb1. } { by rewrite Hi1. }
      assert (Ho1 : outbound s1 = outbound s)
        by (unfold outbound; by rewrite Hb1, Hi1).
      exists s'. repeat split; try done; try apply Hi'.
      * rewrite Ho', Ho1. rewrite !(take_app_le (outbound s)) by lia. done.
      * rewrite Hb1, Hi1 in Hn'. done.
Qed.

(** C1.  Symbol edges taken while RECORDING: whatever the debouncer lets
    through appends the character of the tilt class found at that edge
    (dot, space, dash; nothing for UNKNOWN), the content stops growing at
    MESSAGE_BUFFER_SIZE - WORD_LENGTH characters, and once a character has
    been appended the buffer holds a null at the cursor. *)
Theorem symbol_edges_content es s :
  system_state s = RECORDING ->
  Z.of_nat (length (message_buffer s)) = MESSAGE_BUFFER_SIZE ->
  0 <= message_index s <= MESSAGE_BUFFER_SIZE - WORD_LENGTH ->
  exists s',
    symbol_edges es s = Some s'
    /\ system_state s' = RECORDING
    /\ outbound s'
       = take (Z.to_nat (MESSAGE_BUFFER_SIZE - WORD_LENGTH))
              (outbound s
                 ++ flat_map symbol_of_tilt
                      (accepted_tilts (last_button_time s) es))
    /\ Z.of_nat (length (outbound s')) = message_index s'
    /\ (message_index s' <> message_index s ->
        message_buffer s' !! Z.to_nat (message_index s') = Some NUL).
Proof.
  intros Hst Hl Hi.
  destruct (symbol_edges_content_gen es s Hst Hl Hi)
    as (s' & E & Hs' & Hl' & Hi' & Ho' & Hn').
  exists s'. repeat split; try done; [|by auto].
  apply outbound_length. unfold MESSAGE_BUFFER_SIZE, WORD_LENGTH in *. lia.
Qed.

Lemma symbol_edges_content_witness :
  system_state recording_start = RECORDING
  /\ Z.of_nat (length (message_buffer recording_start)) = MESSAGE_BUFFER_SIZE
  /\ 0 <= message_index recording_start <= MESSAGE_BUFFER_SIZE - WORD_LENGTH
  /\ exists s',
      symbol_edges [(TILT_LEFT, 1000); (TILT_RIGHT, 1100);
                    (TILT_UNKNOWN, 1300); (TILT_MIDDLE, 1600)]
                   recording_start = Some s'
      /\ system_state s' = RECORDING
      /\ outbound s'
         = take (Z.to_nat (MESSAGE_BUFFER_SIZE - WORD_LENGTH))
                (outbound recording_start
                   ++ flat_map symbol_of_tilt
                        (accepted_tilts (last_button_time recording_start)
                           [(TILT_LEFT, 1000); (TILT_RIGHT, 1100);
                            (TILT_UNKNOWN, 1300); (TILT_MIDDLE, 1600)]))
      /\ Z.of_nat (length (outbound s')) = message_index s'
      /\ (message_index s' <> message_index recording_start ->
          message_buffer s' !! Z.to_nat (message_index s') = Some NUL).
Proof.
  split; [reflexivity|]. split; [reflexivity|]. split; [by vm_compute|].
  apply symbol_edges_content; [reflexivity | reflexivity | by vm_compute].
Defined.

(** C10.  An accepted Symbol edge that finds the system IDLE moves it to
    RECORDING and, in the same invocation, appends the character of the
    current tilt class when that class is not UNKNOWN and there is room. *)
Theorem first_press_records now s :
  system_state s = IDLE ->
  debounced now s = false ->
  current_tilt s <> TILT_UNKNOWN ->
  0 <= message_index s < MESSAGE_BUFFER_SIZE - WORD_LENGTH ->
  Z.of_nat (length (message_buffer s)) = MESSAGE_BUFFER_SIZE ->
  exists s' c,
    button_handler BUTTON2 now s = Some s'
    /\ system_state s' = RECORDING
    /\ symbol_of_tilt (current_tilt s) = [c]
    /\ outbound s' = outbound s ++ [c]
    /\ message_index s' = message_index s + 1
    /\ message_buffer s' !! Z.to_nat (message_index s') = Some NUL.
Proof.
  intros Hst Hd Ht Hi Hl.
  destruct (symbol_edge_live now s Hd (or_introl Hst) Hi Hl)
    as (s' & E & Hs' & Ho' & Hi' & Hn' & _).
  assert (Hc : exists c, symbol_of_tilt (current_tilt s) = [c])
    by (destruct (current_tilt s); simpl; by eauto).
  destruct Hc as [c Hc]. rewrite Hc in Ho', Hi'.
  exists s', c. by repeat split.
Qed.

Lemma first_press_records_witness :
  (run first_session init_state = Some (idle_tilted, [printf [ "."; " "; " "; LF ]; clear_display; write_text (text "Msg sent!")]))
  /\ system_state idle_tilted = IDLE
  /\ debounced 4000 idle_tilted = false
  /\ current_tilt idle_tilted <> TILT_UNKNOWN
  /\ 0 <= message_index idle_tilted < MESSAGE_BUFFER_SIZE - WORD_LENGTH
  /\ Z.of_nat (length (message_buffer idle_tilted)) = MESSAGE_BUFFER_SIZE
  /\ exists s' c,
      button_handler BUTTON2 4000 idle_tilted = Some s'
      /\ system_state s' = RECORDING
      /\ symbol_of_tilt (current_tilt idle_tilted) = [c]
      /\ outbound s' = outbound idle_tilted ++ [c]
      /\ message_index s' = message_index idle_tilted + 1
      /\ message_buffer s' !! Z.to_nat (message_index s') = Some NUL.
Proof.
  split; [by vm_compute|].
  split; [reflexivity|]. split; [by vm_compute|]. split; [done|].
  split; [by vm_compute|]. split; [reflexivity|].
  apply first_press_records;
    [reflexivity | by vm_compute | done | by vm_compute | reflexivity].
Defined.

(** * The Finalize edge *)

(** C2.  A Finalize edge leaves the outbound buffer, its cursor and the
    system state alone unless it is accepted while RECORDING with a
    non-empty message and room for the terminator; then it appends space,
    space, line feed and a null, and the state becomes SENDING. *)
Theorem finalize_edge_effect now s :
  Z.of_nat (length (message_buffer s)) = MESSAGE_BUFFER_SIZE ->
  exists s',
    button_handler BUTTON1 now s = Some s'
    /\ (debounced now s = false
        /\ system_state s = RECORDING
        /\ 0 < message_index s < MESSAGE_BUFFER_SIZE - 3 ->
        outbound s' = outbound s ++ [" "; " "; LF]
        /\ message_index s' = message_index s + 3
        /\ message_buffer s' !! Z.to_nat (message_index s') = Some NUL
        /\ system_state s' = SENDING)
    /\ (~ (debounced now s = false
           /\ system_state s = RECORDING
           /\ 0 < message_index s < MESSAGE_BUFFER_SIZE - 3) ->
        message_buffer s' = message_buffer s
        /\ message_index s' = message_index s
        /\ system_state s' = system_state s).
Proof.
  intros Hl.
  destruct (decide (debounced now s = false
                    /\ system_state s = RECORDING
                    /\ 0 < message_index s < MESSAGE_BUFFER_SIZE - 3))
    as [(Hd & Hst & Hi)|Hno].
  - destruct (finalize_edge_live now s Hd Hst Hi Hl)
      as (s' & E & Hs' & Ho' & Hi' & Hn' & _).
    exists s'. split; [done|]. split; [by intros _|].
    intros Hno. by destruct Hno.
  - destruct (finalize_edge_skip now s Hno) as (s' & E & Hs' & Hb' & Hi').
    exists s'. split; [done|]. split; [by intros ?|]. by intros _.
Qed.

Lemma finalize_edge_effect_witness :
  Z.of_nat (length (message_buffer one_dot)) = MESSAGE_BUFFER_SIZE
  /\ exists s',
      button_handler BUTTON1 2000 one_dot = Some s'
      /\ (debounced 2000 one_dot = false
          /\ system_state one_dot = RECORDING
          /\ 0 < message_index one_dot < MESSAGE_BUFFER_SIZE - 3 ->
          outbound s' = outbound one_dot ++ [" "; " "; LF]
          /\ message_index s' = message_index one_dot + 3
          /\ message_buffer s' !! Z.to_nat (message_index s') = Some NUL
          /\ system_state s' = SENDING)
      /\ (~ (debounced 2000 one_dot = false
             /\ system_state one_dot = RECORDING
             /\ 0 < message_index one_dot < MESSAGE_BUFFER_SIZE - 3) ->
          message_buffer s' = message_buffer one_dot
          /\ message_index s' = message_index one_dot
          /\ system_state s' = system_state one_dot).
Proof.
  split; [reflexivity|]. apply finalize_edge_effect. reflexivity.
Defined.

(** * The scenario of three symbols *)

Lemma debounced_after now s t :
  last_button_time s = to_ms_since_boot t ->
  negb (bool_decide (u32 (to_ms_since_boot now - to_ms_since_boot t)
                     < DEBOUNCE_MS)) = true ->
  debounced now s = false.
Proof.
  intros Hl H. unfold debounced. rewrite Hl. by apply negb_true_iff.
Qed.

(** C7, as the code has it.  From RECORDING with an empty outbound buffer,
    three accepted Symbol edges under the tilt classes LEFT, MIDDLE, RIGHT
    leave the three characters dot, space, dash; an accepted Finalize edge
    then makes the buffer dot, space, dash, space, space, line feed and the
    state SENDING. *)
Theorem three_symbols_then_finalize s t1 t2 t3 t4 :
  system_state s = RECORDING ->
  message_index s = 0 ->
  Z.of_nat (length (message_buffer s)) = MESSAGE_BUFFER_SIZE ->
  all_accepted (last_button_time s) [t1; t2; t3; t4] = true ->
  exists s3 s4,
    symbol_edges [(TILT_LEFT, t1); (TILT_MIDDLE, t2); (TILT_RIGHT, t3)] s
    = Some s3
    /\ outbound s3 = ["."; " "; "-"]
    /\ system_state s3 = RECORDING
    /\ button_handler BUTTON1 t4 s3 = Some s4
    /\ outbound s4 = ["."; " "; "-"; " "; " "; LF]
    /\ cstr (message_buffer s4) = Some ["."; " "; "-"; " "; " "; LF]
    /\ system_state s4 = SENDING.
Proof.
  intros Hst Hi Hl Hacc. cbn [all_accepted] in Hacc.
  apply andb_true_iff in Hacc as [A1 Hacc].
  apply andb_true_iff in Hacc as [A2 Hacc].
  apply andb_true_iff in Hacc as [A3 Hacc].
  apply andb_true_iff in Hacc as [A4 _].
  assert (Ho : outbound s = []) by (unfold outbound; by rewrite Hi).
  assert (Hd1 : debounced t1 s = false) by (by apply negb_true_iff in A1).
  unfold MESSAGE_BUFFER_SIZE, WORD_LENGTH in *.
  destruct (symbol_edge_accepted TILT_LEFT t1 s Hd1 (or_intror Hst))
    as (s1 & E1 & Hs1 & Ho1 & Hi1 & _ & Hl1 & Ht1);
    [unfold MESSAGE_BUFFER_SIZE, WORD_LENGTH; lia | done |].
  destruct (symbol_edge_accepted TILT_MIDDLE t2 s1
              (debounced_after _ _ _ Ht1 A2) (or_intror Hs1))
    as (s2 & E2 & Hs2 & Ho2 & Hi2 & _ & Hl2 & Ht2);
    [unfold MESSAGE_BUFFER_SIZE, WORD_LENGTH; simpl in *; lia
    | unfold MESSAGE_BUFFER_SIZE; lia |].
  destruct (symbol_edge_accepted TILT_RIGHT t3 s2
              (debounced_after _ _ _ Ht2 A3) (or_intror Hs2))
    as (s3 & E3 & Hs3 & Ho3 & Hi3 & _ & Hl3 & Ht3);
    [unfold MESSAGE_BUFFER_SIZE, WORD_LENGTH; simpl in *; lia
    | unfold MESSAGE_BUFFER_SIZE; lia |].
  destruct (finalize_edge_live t4 s3 (debounced_after _ _ _ Ht3 A4) Hs3)
    as (s4 & E4 & Hs4 & Ho4 & Hi4 & Hn4 & _);
    [unfold MESSAGE_BUFFER_SIZE; simpl in *; lia
    | unfold MESSAGE_BUFFER_SIZE; lia |].
  rewrite Ho in Ho1. rewrite Ho1 in Ho2. rewrite Ho2 in Ho3.
  rewrite Ho3 in Ho4. simpl in Ho1, Ho2, Ho3, Ho4.
  exists s3, s4. cbn [symbol_edges]. rewrite E1. cbn [mbind option_bind].
  rewrite E2. cbn [mbind option_bind]. rewrite E3. cbn [mbind option_bind].
  repeat split; try done.
  rewrite (cstr_take _ _ Hn4); fold (outbound s4); rewrite Ho4; [done|].
  by repeat constructor.
Qed.

Lemma three_symbols_then_finalize_witness :
  system_state recording_start = RECORDING
  /\ message_index recording_start = 0
  /\ Z.of_nat (length (message_buffer recording_start)) = MESSAGE_BUFFER_SIZE
  /\ all_accepted (last_button_time recording_start)
       [1000; 2000; 3000; 4000] = true
  /\ exists s3 s4,
      symbol_edges [(TILT_LEFT, 1000); (TILT_MIDDLE, 2000); (TILT_RIGHT, 3000)]
                   recording_start
      = Some s3
      /\ outbound s3 = ["."; " "; "-"]
      /\ system_state s3 = RECORDING
      /\ button_handler BUTTON1 4000 s3 = Some s4
      /\ outbound s4 = ["."; " "; "-"; " "; " "; LF]
      /\ cstr (message_buffer s4) = Some ["."; " "; "-"; " "; " "; LF]
      /\ system_state s4 = SENDING.
Proof.
  split; [reflexivity|]. split; [reflexivity|]. split; [reflexivity|].
  split; [by vm_compute|].
  apply three_symbols_then_finalize;
    [reflexivity | reflexivity | reflexivity | by vm_compute].
Defined.

(** The two-space string the scenario of the spec names is not what the
    three edges leave: the buffer holds dot, space, dash, and after the
    Finalize edge dot, space, dash, space, space, line feed. *)
Lemma three_symbols_not_four_characters :
  exists s3 s4,
    symbol_edges [(TILT_LEFT, 1000); (TILT_MIDDLE, 2000); (TILT_RIGHT, 3000)]
                 recording_start
    = Some s3
    /\ button_handler BUTTON1 4000 s3 = Some s4
    /\ outbound s3 = text ". -"
    /\ outbound s3 <> text ".  -"
    /\ outbound s4 = text ". -  " ++ [LF]
    /\ outbound s4 <> text ".  -  " ++ [LF].
Proof.
  eexists _, _. split; [vm_compute; reflexivity|].
  split; [vm_compute; reflexivity|].
  by vm_compute.
Qed.

(** * No buffer overflow *)

Lemma button_write_has_room gpio now s s' :
  inv s ->
  button_handler gpio now s = Some s' ->
  message_buffer s' <> message_buffer s \/ message_index s' <> message_index s ->
  message_index s + WORD_LENGTH <= MESSAGE_BUFFER_SIZE.
Proof.
  intros Hinv E Hch.
  pose proof Hinv as (Hl & _ & _ & _ & Hm0 & _ & Hst).
  destruct (debounced now s) eqn:Hd.
  { rewrite button_debounced in E by done. simplify_eq. by destruct Hch. }
  destruct gpio.
  - destruct (decide (system_state s = RECORDING)) as [Hrec|Hrec].
    { rewrite Hrec in Hst. unfold WORD_LENGTH, MESSAGE_BUFFER_SIZE in *. lia. }
    destruct (finalize_edge_skip now s) as (s1 & E1 & _ & Hb1 & Hi1); [tauto|].
    simplify_eq. by destruct Hch.
  - destruct (decide ((system_state s = IDLE \/ system_state s = RECORDING)
                      /\ message_index s < MESSAGE_BUFFER_SIZE - WORD_LENGTH))
      as [[_ Hroom]|Hno].
    { unfold WORD_LENGTH, MESSAGE_BUFFER_SIZE in *. lia. }
    destruct (symbol_edge_skip now s Hd Hno) as (s1 & E1 & _ & Hb1 & Hi1 & _).
    simplify_eq. by destruct Hch.
  - rewrite button_handler_other, Hd in E. simplify_eq. by destruct Hch.
Qed.

(** C3.  In every reachable state no step is undefined, so no step writes
    outside [message_buffer] or [received_buffer] (or reads a string past
    its array); both cursors are valid indices; unless the message has
    been finalized and awaits the sender, the outbound cursor leaves room
    for WORD_LENGTH more characters, and so it does whenever a button edge
    writes to the outbound buffer. *)
Theorem buffers_never_overflow s :
  reachable s ->
  (forall e, exists s' out, step e s = Some (s', out))
  /\ Z.of_nat (length (message_buffer s)) = MESSAGE_BUFFER_SIZE
  /\ Z.of_nat (length (received_buffer s)) = RECEIVED_BUFFER_SIZE
  /\ 0 <= message_index s < MESSAGE_BUFFER_SIZE
  /\ 0 <= received_index s < RECEIVED_BUFFER_SIZE
  /\ (system_state s <> SENDING ->
      message_index s + WORD_LENGTH <= MESSAGE_BUFFER_SIZE)
  /\ (forall gpio now s',
        button_handler gpio now s = Some s' ->
        message_buffer s' <> message_buffer s
        \/ message_index s' <> message_index s ->
        message_index s + WORD_LENGTH <= MESSAGE_BUFFER_SIZE).
Proof.
  intros Hr. pose proof (reachable_inv s Hr) as Hinv.
  pose proof (inv_bounds s Hinv) as [Hm Hri].
  pose proof Hinv as (Hl & Hlr & _ & _ & _ & _ & Hst).
  split.
  { intros e. destruct (inv_step e s Hinv) as (s' & out & E & _). eauto. }
  repeat split; try done; try apply Hm; try apply Hri.
  - intros Hns. unfold WORD_LENGTH, MESSAGE_BUFFER_SIZE in *.
    destruct (system_state s); try done; lia.
  - intros gpio now s'. by apply button_write_has_room.
Qed.

Lemma buffers_never_overflow_witness :
  reachable init_state
  /\ (forall e, exists s' out, step e init_state = Some (s', out))
  /\ Z.of_nat (length (message_buffer init_state)) = MESSAGE_BUFFER_SIZE
  /\ Z.of_nat (length (received_buffer init_state)) = RECEIVED_BUFFER_SIZE
  /\ 0 <= message_index init_state < MESSAGE_BUFFER_SIZE
  /\ 0 <= received_index init_state < RECEIVED_BUFFER_SIZE
  /\ (system_state init_state <> SENDING ->
      message_index init_state + WORD_LENGTH <= MESSAGE_BUFFER_SIZE)
  /\ (forall gpio now s',
        button_handler gpio now init_state = Some s' ->
        message_buffer s' <> message_buffer init_state
        \/ message_index s' <> message_index init_state ->
        message_index init_state + WORD_LENGTH <= MESSAGE_BUFFER_SIZE).
Proof.
  split; [apply reachable_init|].
  apply buffers_never_overflow. apply reachable_init.
Defined.

(** * The receiver *)

(** C5.  From IDLE with an empty inbound buffer, the characters dot, dash
    and line feed, one per iteration, take the state to RECEIVING,
    RECEIVING and DISPLAY_UPDATE; the buffer then holds dot, dash. *)
Theorem receiver_scenario s :
  system_state s = IDLE ->
  received_index s = 0 ->
  Z.of_nat (length (received_buffer s)) = RECEIVED_BUFFER_SIZE ->
  exists s1 s2 s3,
    receiver_task (Some ".") s = Some s1
    /\ system_state s1 = RECEIVING
    /\ receiver_task (Some "-") s1 = Some s2
    /\ system_state s2 = RECEIVING
    /\ receiver_task (Some LF) s2 = Some s3
    /\ system_state s3 = DISPLAY_UPDATE
    /\ inbound s3 = ["."; "-"]
    /\ received_index s3 = 2
    /\ cstr (received_buffer s3) = Some ["."; "-"].
Proof.
  intros Hst Hi Hl.
  assert (Ho : inbound s = []) by (unfold inbound; by rewrite Hi).
  destruct (receiver_stores "." s (or_introl Hst))
    as (s1 & E1 & Hs1 & Ho1 & Hi1 & _ & Hl1 & _); [done | lia | done |].
  destruct (receiver_stores "-" s1 (or_intror Hs1))
    as (s2 & E2 & Hs2 & Ho2 & Hi2 & Hn2 & Hl2 & _);
    [done | lia | by rewrite Hl1 |].
  exists s1, s2, (set_system_state DISPLAY_UPDATE s2).
  rewrite receiver_line_feed by auto.
  rewrite Ho in Ho1. rewrite Ho1 in Ho2. simpl in Ho2.
  repeat split; try done; cbn [received_index received_buffer set_system_state];
    [lia|].
  rewrite (cstr_take _ _ Hn2); fold (inbound s2); rewrite Ho2; [done|].
  by repeat constructor.
Qed.

Lemma receiver_scenario_witness :
  system_state init_state = IDLE
  /\ received_index init_state = 0
  /\ Z.of_nat (length (received_buffer init_state)) = RECEIVED_BUFFER_SIZE
  /\ exists s1 s2 s3,
      receiver_task (Some ".") init_state = Some s1
      /\ system_state s1 = RECEIVING
      /\ receiver_task (Some "-") s1 = Some s2
      /\ system_state s2 = RECEIVING
      /\ receiver_task (Some LF) s2 = Some s3
      /\ system_state s3 = DISPLAY_UPDATE
      /\ inbound s3 = ["."; "-"]
      /\ received_index s3 = 2
      /\ cstr (received_buffer s3) = Some ["."; "-"].
Proof.
  split; [reflexivity|]. split; [reflexivity|]. split; [reflexivity|].
  apply receiver_scenario; reflexivity.
Defined.

(** C6.  While the state is RECORDING, SENDING or DISPLAY_UPDATE a
    received character is dropped: the iteration changes nothing. *)
Theorem receiver_drops_when_busy c s :
  system_state s = RECORDING \/ system_state s = SENDING
  \/ system_state s = DISPLAY_UPDATE ->
  receiver_task (Some c) s = Some s.
Proof.
  intros H. apply receiver_busy; destruct H as [H|[H|H]]; by rewrite H.
Qed.

Lemma receiver_drops_when_busy_witness :
  (system_state one_dot = RECORDING \/ system_state one_dot = SENDING
   \/ system_state one_dot = DISPLAY_UPDATE)
  /\ receiver_task (Some "-") one_dot = Some one_dot.
Proof.
  split; [by left|]. apply receiver_drops_when_busy. by left.
Defined.

(** * Boot *)

(** C8 fails on the code: the test of line 330 leaves [result_s] out, so
    the scheduler is started whatever creating the sender task returned,
    and nothing is reported. *)
Theorem main_ignores_sender_result usb_polls result_s :
  scheduler_started (main usb_polls pdPASS pdPASS pdPASS result_s) = true
  /\ boot_log (main usb_polls pdPASS pdPASS pdPASS result_s)
     = boot_log (main usb_polls pdPASS pdPASS pdPASS pdPASS).
Proof. by unfold main. Qed.

(** The three results the test does look at. *)
Lemma main_aborts usb_polls result result_r result_d result_s :
  result <> pdPASS \/ result_r <> pdPASS \/ result_d <> pdPASS ->
  scheduler_started (main usb_polls result result_r result_d result_s) = false
  /\ last (boot_log (main usb_polls result result_r result_d result_s))
     = Some (printf (text "Task creation failed" ++ [LF])).
Proof.
  intros H. unfold main. rewrite decide_True by done.
  cbn [scheduler_started boot_log]. split; [done|].
  apply last_snoc.
Qed.

(** * The debouncer *)

Lemma button_handler_time gpio now s s' :
  button_handler gpio now s = Some s' ->
  last_button_time s'
  = if debounced now s then last_button_time s else to_ms_since_boot now.
Proof.
  unfold button_handler. destruct (debounced now s); [naive_solver|].
  cbn zeta. intros H.
  repeat case_decide; try destruct (current_tilt _) eqn:Ht;
    repeat match goal with
      | H : (_ ≫= _) = Some _ |- _ =>
          apply bind_Some in H; destruct H as (? & ? & H)
      | H : _ <$> _ = Some _ |- _ =>
          apply fmap_Some in H; destruct H as (? & H & ->)
      | H : put_message _ _ = Some _ |- _ =>
          apply put_message_frame in H; destruct H as (? & ? & ? & ? & ? & ?)
      end;
    simplify_eq/=; congruence.
Qed.

(** The wrapped difference of two clock readings is the elapsed time when
    less than 2^32 ms went by; in any case it is at most the elapsed
    time. *)
Lemma elapsed_at_least t0 t :
  t0 <= t ->
  ~ u32 (to_ms_since_boot t - to_ms_since_boot t0) < DEBOUNCE_MS ->
  DEBOUNCE_MS <= t - t0.
Proof.
  unfold to_ms_since_boot, u32, DEBOUNCE_MS. intros Hle Hn.
  rewrite <- Zminus_mod in Hn.
  destruct (decide (t - t0 < 200)) as [Hlt|]; [|lia].
  rewrite Z.mod_small in Hn by lia. lia.
Qed.

Lemma Forall_later (t : Z) (es : list (gpio_pin * Z)) :
  Forall (Z.le t) (es.*2) -> Forall (fun e => t <= e.2) es.
Proof.
  rewrite Forall_fmap. intros H. eapply Forall_impl; [exact H|]. by intros [].
Qed.

Lemma spaced_after_accepted es : forall s flags s' t0,
  last_button_time s = to_ms_since_boot t0 ->
  Forall (fun e => t0 <= e.2) es ->
  StronglySorted Z.le (es.*2) ->
  press_all es s = Some (flags, s') ->
  forall j g t,
    es !! j = Some (g, t) -> flags !! j = Some true -> DEBOUNCE_MS <= t - t0.
Proof.
  induction es as [|[g0 t1] rest IH]; intros s flags s' t0 Hlast Hge Hsort E j g t Hj Hf;
    [done|].
  cbn [press_all] in E.
  destruct (button_handler g0 t1 s) as [s1|] eqn:E1; [|done].
  cbn [mbind option_bind] in E.
  destruct (press_all rest s1) as [[fl s2]|] eqn:E2; [|done].
  cbn [mbind option_bind] in E. simplify_eq.
  apply Forall_cons in Hge as [Hge1 Hge]. cbn [snd] in Hge1.
  cbn [fmap list_fmap snd] in Hsort.
  apply StronglySorted_inv in Hsort as [Hsort Hall].
  pose proof (button_handler_time _ _ _ _ E1) as Ht1.
  destruct j as [|j]; cbn in Hj, Hf; simplify_eq.
  - apply negb_true_iff in Hf. unfold debounced in Hf.
    apply bool_decide_eq_false in Hf. rewrite Hlast in Hf.
    by apply elapsed_at_least.
  - destruct (debounced t1 s) eqn:Hd.
    + apply (IH s1 fl s' t0) with (j := j) (g := g); try done; congruence.
    + unfold debounced in Hd. apply bool_decide_eq_false in Hd.
      rewrite Hlast in Hd. apply elapsed_at_least in Hd; [|done].
      enough (DEBOUNCE_MS <= t - t1) by (unfold DEBOUNCE_MS in *; lia).
      apply (IH s1 fl s' t1) with (j := j) (g := g); try done.
      by apply Forall_later.
Qed.

(** C4, as the code has it.  Along any run of button edges whose clock
    never runs backwards, two edges that both get past the debounce test
    are at least DEBOUNCE_MS apart, whatever their pins: an edge is
    accepted only if at least the debounce window has elapsed since the
    last accepted edge, and of two edges closer than the window at most one
    is accepted. *)
Theorem accepted_edges_spaced es : forall s flags s' i j gi ti gj tj,
  StronglySorted Z.le (es.*2) ->
  press_all es s = Some (flags, s') ->
  (i < j)%nat ->
  es !! i = Some (gi, ti) -> es !! j = Some (gj, tj) ->
  flags !! i = Some true -> flags !! j = Some true ->
  DEBOUNCE_MS <= tj - ti.
Proof.
  induction es as [|[g0 t0] rest IH];
    intros s flags s' i j gi ti gj tj Hsort E Hij Hi Hj Hfi Hfj; [done|].
  cbn [press_all] in E.
  destruct (button_handler g0 t0 s) as [s1|] eqn:E1; [|done].
  cbn [mbind option_bind] in E.
  destruct (press_all rest s1) as [[fl s2]|] eqn:E2; [|done].
  cbn [mbind option_bind] in E. simplify_eq.
  cbn [fmap list_fmap snd] in Hsort.
  apply StronglySorted_inv in Hsort as [Hsort Hall].
  destruct j as [|j]; [lia|]. cbn in Hj, Hfj.
  destruct i as [|i]; cbn in Hi, Hfi; simplify_eq.
  - apply negb_true_iff in Hfi.
    pose proof (button_handler_time _ _ _ _ E1) as Ht. rewrite Hfi in Ht.
    apply (spaced_after_accepted rest s1 fl s' ti Ht) with (j := j) (g := gj);
      try done.
    by apply Forall_later.
  - apply (IH s1 fl s' i j gi ti gj tj); try done. lia.
Qed.

Lemma accepted_edges_spaced_witness :
  StronglySorted Z.le ([(BUTTON2, 1000); (BUTTON1, 1100); (BUTTON2, 1250)].*2)
  /\ press_all [(BUTTON2, 1000); (BUTTON1, 1100); (BUTTON2, 1250)] init_state
     = Some ([true; false; true],
             set_last_button_time 1250
               (set_system_state RECORDING init_state))
  /\ (0 < 2)%nat
  /\ [(BUTTON2, 1000); (BUTTON1, 1100); (BUTTON2, 1250)] !! 0%nat
     = Some (BUTTON2, 1000)
  /\ [(BUTTON2, 1000); (BUTTON1, 1100); (BUTTON2, 1250)] !! 2%nat
     = Some (BUTTON2, 1250)
  /\ [true; false; true] !! 0%nat = Some true
  /\ [true; false; true] !! 2%nat = Some true
  /\ DEBOUNCE_MS <= 1250 - 1000.
Proof.
  assert (Hs : StronglySorted Z.le
                 ([(BUTTON2, 1000); (BUTTON1, 1100); (BUTTON2, 1250)].*2))
    by (cbn;
        repeat first [ apply SSorted_nil | apply SSorted_cons
                     | apply List.Forall_nil | apply List.Forall_cons ]; lia).
  split; [exact Hs|]. split; [by vm_compute|]. split; [lia|].
  do 4 (split; [reflexivity|]).
  apply (accepted_edges_spaced
           [(BUTTON2, 1000); (BUTTON1, 1100); (BUTTON2, 1250)]
           init_state [true; false; true]
           (set_last_button_time 1250 (set_system_state RECORDING init_state))
           0%nat 2%nat BUTTON2 1000 BUTTON2 1250);
    [exact Hs | by vm_compute | lia | reflexivity ..].
Defined.

(** The window is not strict: an edge exactly DEBOUNCE_MS after the last
    accepted edge of the same pin is accepted. *)
Lemma debounce_window_not_strict :
  exists s',
    press_all [(BUTTON2, 1000); (BUTTON2, 1200)] init_state
    = Some ([true; true], s')
    /\ last_button_time s' = 1200
    /\ ~ DEBOUNCE_MS < 1200 - 1000.
Proof.
  eexists. split; [vm_compute; reflexivity|]. by vm_compute.
Qed.

(** * From the sender to a receiver *)

Lemma inbound_length s :
  0 <= received_index s <= Z.of_nat (length (received_buffer s)) ->
  Z.of_nat (length (inbound s)) = received_index s.
Proof. intros H. unfold inbound. rewrite length_take. lia. Qed.

Lemma receive_all_content cs : forall r,
  Forall (fun c => c <> LF) cs ->
  system_state r = IDLE \/ system_state r = RECEIVING ->
  0 <= received_index r <= 127 ->
  Z.of_nat (length (received_buffer r)) = RECEIVED_BUFFER_SIZE ->
  exists r',
    receive_all cs r = Some r'
    /\ inbound r' = take 127 (inbound r ++ cs)
    /\ (system_state r = RECEIVING \/ cs <> [] -> system_state r' = RECEIVING).
Proof.
  induction cs as [|c rest IH]; intros r Hcs Hst Hi Hl.
  all: assert (Hlen : Z.of_nat (length (inbound r)) = received_index r)
    by (apply inbound_length; unfold RECEIVED_BUFFER_SIZE in *; lia).
  { exists r. repeat split; [|by intros [?|?]].
    rewrite app_nil_r, take_ge; [done | lia]. }
  apply Forall_cons in Hcs as [Hc Hcs]. cbn [receive_all].
  destruct (decide (received_index r < 127)) as [Hroom|Hfull].
  - destruct (receiver_stores c r Hst Hc (conj (proj1 Hi) Hroom) Hl)
      as (r1 & -> & Hs1 & Ho1 & Hi1 & _ & Hl1 & _).
    cbn [mbind option_bind].
    destruct (IH r1 Hcs (or_intror Hs1)) as (r' & E & Ho' & Hs');
      [lia | by rewrite Hl1 |].
    exists r'. repeat split; [done | | by auto].
    rewrite Ho', Ho1. by rewrite <- app_assoc.
  - rewrite receiver_full by done. cbn [mbind option_bind].
    destruct (IH (set_system_state RECEIVING r) Hcs) as (r' & E & Ho' & Hs');
      [by right | done | done |].
    exists r'. repeat split; [done | | by auto].
    rewrite Ho'. change (inbound (set_system_state RECEIVING r)) with (inbound r).
    rewrite !(take_app_le (inbound r)) by lia. done.
Qed.

Lemma run_reachable es : forall s s' out,
  reachable s -> run es s = Some (s', out) -> reachable s'.
Proof.
  induction es as [|e rest IH]; intros s s' out Hr E; cbn [run] in E.
  { by simplify_eq. }
  destruct (step e s) as [[s1 out1]|] eqn:E1; [|done].
  cbn [mbind option_bind] in E.
  destruct (run rest s1) as [[s2 out2]|] eqn:E2; [|done].
  cbn [mbind option_bind] in E. simplify_eq.
  eapply IH; [|done]. by eapply reachable_step.
Qed.

(** C9, as the code has it.  What the sender prints for a finalized
    message is the content of the outbound buffer, a line ending in a line
    feed; fed without that line feed,
    one character per iteration, to a receiver that is IDLE with an empty
    inbound buffer, it leaves the receiver RECEIVING with the first 127
    characters of the line, which is the whole line when it is no longer
    than that. *)
Theorem sender_receiver_round_trip s r :
  reachable s ->
  system_state s = SENDING ->
  system_state r = IDLE ->
  received_index r = 0 ->
  Z.of_nat (length (received_buffer r)) = RECEIVED_BUFFER_SIZE ->
  exists s' line r',
    outbound s = line ++ [LF]
    /\ cstr (message_buffer s) = Some (line ++ [LF])
    /\ sender_task s
       = Some (s', [printf (line ++ [LF]); clear_display;
                    write_text (text "Msg sent!")])
    /\ Forall (fun c => c <> LF) line
    /\ receive_all line r = Some r'
    /\ system_state r' = RECEIVING
    /\ inbound r' = take 127 line
    /\ ((length line <= 127)%nat -> inbound r' = line).
Proof.
  intros Hreach Hst Hr Hi Hl.
  pose proof (reachable_inv s Hreach) as Hinv.
  destruct (sender_task_sending s Hinv Hst) as (s' & E & _).
  pose proof Hinv as (_ & _ & _ & _ & _ & _ & Hsend). rewrite Hst in Hsend.
  destruct Hsend as (syms & Ho & Hsym & Hne).
  set (line := syms ++ [" "; " "]).
  assert (Hline : outbound s = line ++ [LF])
    by (rewrite Ho; unfold line, terminator; by rewrite <- app_assoc).
  assert (Hnl : Forall (fun c => c <> LF) line).
  { apply Forall_app; split; [|by repeat constructor].
    eapply Forall_impl; [exact Hsym|]. by intros c [-> | [-> | ->]]. }
  destruct (receive_all_content line r Hnl (or_introl Hr))
    as (r' & Er & Hor & Hsr); [lia | done |].
  assert (Hin : inbound r = []) by (unfold inbound; by rewrite Hi).
  rewrite Hin in Hor. cbn [app] in Hor.
  exists s', line, r'. rewrite <- Hline.
  split; [done|]. split; [by apply cstr_sending|].
  repeat split; try done.
  - apply Hsr. right. unfold line. by destruct syms.
  - intros Hshort. rewrite Hor. by apply take_ge.
Qed.

Lemma sender_receiver_round_trip_witness :
  reachable dot_finalized
  /\ system_state dot_finalized = SENDING
  /\ system_state init_state = IDLE
  /\ received_index init_state = 0
  /\ Z.of_nat (length (received_buffer init_state)) = RECEIVED_BUFFER_SIZE
  /\ exists s' line r',
      outbound dot_finalized = line ++ [LF]
      /\ cstr (message_buffer dot_finalized) = Some (line ++ [LF])
      /\ sender_task dot_finalized
         = Some (s', [printf (line ++ [LF]); clear_display;
                      write_text (text "Msg sent!")])
      /\ Forall (fun c => c <> LF) line
      /\ receive_all line init_state = Some r'
      /\ system_state r' = RECEIVING
      /\ inbound r' = take 127 line
      /\ ((length line <= 127)%nat -> inbound r' = line).
Proof.
  assert (Hr : reachable dot_finalized).
  { apply (run_reachable
             [EButton BUTTON2 1000; EImu tilted_left; EButton BUTTON2 2000;
              EButton BUTTON1 3000] init_state _ []);
      [apply reachable_init | by vm_compute]. }
  split; [exact Hr|]. do 4 (split; [reflexivity|]).
  apply sender_receiver_round_trip; [exact Hr | reflexivity ..].
Defined.

(** A finalized message of 126 dots is a line of 128 characters before the
    line feed; the receiver keeps 127 of them, so what it holds is not the
    line that was sent. *)
Lemma long_line_is_truncated :
  exists s s' r',
    run long_session init_state = Some (s, [])
    /\ reachable s
    /\ system_state s = SENDING
    /\ outbound s = (replicate 126 "." ++ [" "; " "]) ++ [LF]
    /\ sender_task s
       = Some (s', [printf ((replicate 126 "." ++ [" "; " "]) ++ [LF]);
                    clear_display; write_text (text "Msg sent!")])
    /\ receive_all (replicate 126 "." ++ [" "; " "]) init_state = Some r'
    /\ inbound r' = replicate 126 "." ++ [" "]
    /\ inbound r' <> replicate 126 "." ++ [" "; " "].
Proof.
  eexists _, _, _. split; [vm_compute; reflexivity|].
  split.
  { apply (run_reachable long_session init_state _ [] reachable_init).
    vm_compute; reflexivity. }
  split; [reflexivity|]. split; [by vm_compute|].
  split; [vm_compute; reflexivity|].
  split; [vm_compute; reflexivity|].
  split; [by vm_compute|]. by vm_compute.
Qed.

(** * More on button_handler *)

(** How an invocation can change the state and the outbound cursor. *)
Lemma button_handler_cases gpio now s s' :
  button_handler gpio now s = Some s' ->
  (system_state s' = system_state s
   \/ (gpio = BUTTON2 /\ debounced now s = false
       /\ system_state s = IDLE /\ system_state s' = RECORDING)
   \/ (gpio = BUTTON1 /\ debounced now s = false
       /\ system_state s = RECORDING /\ system_state s' = SENDING
       /\ 0 < message_index s))
  /\ (message_index s' = message_index s
      \/ (gpio = BUTTON2 /\ current_tilt s <> TILT_UNKNOWN
          /\ system_state s' = RECORDING)
      \/ (gpio = BUTTON1 /\ system_state s' = SENDING)).
Proof.
  unfold button_handler. destruct (debounced now s); [naive_solver|].
  cbn zeta. intros H.
  repeat case_decide; try destruct (current_tilt _) eqn:Ht;
    repeat match goal with
      | H : (_ ≫= _) = Some _ |- _ =>
          apply bind_Some in H; destruct H as (? & ? & H)
      | H : _ <$> _ = Some _ |- _ =>
          apply fmap_Some in H; destruct H as (? & H & ->)
      | H : put_message _ _ = Some _ |- _ =>
          apply put_message_frame in H; destruct H as (? & ? & ? & ? & ? & ?)
      end;
    simplify_eq/=; destruct_and?; split;
    first [ left; congruence
          | right; left; repeat split; first [done | congruence | lia]
          | right; right; repeat split; first [done | congruence | lia] ].
Qed.

(** * More on the tasks *)

Lemma receiver_task_frame ch s s' :
  receiver_task ch s = Some s' ->
  current_tilt s' = current_tilt s
  /\ last_button_time s' = last_button_time s
  /\ message_buffer s' = message_buffer s
  /\ message_index s' = message_index s.
Proof.
  unfold receiver_task. destruct ch as [c|]; [|by intros; simplify_eq].
  case_decide; [|by intros; simplify_eq]. cbn zeta.
  unfold put_received. intros E.
  repeat case_decide;
    repeat match goal with
      | H : (_ ≫= _) = Some _ |- _ =>
          apply bind_Some in H; destruct H as (? & ? & H)
      | H : _ <$> _ = Some _ |- _ =>
          apply fmap_Some in H; destruct H as (? & H & ->)
      end;
    by simplify_eq/=.
Qed.

Lemma receiver_task_state ch s s' :
  receiver_task ch s = Some s' ->
  system_state s' = system_state s
  \/ (exists c, ch = Some c /\ c <> LF
                /\ system_state s = IDLE /\ system_state s' = RECEIVING)
  \/ (ch = Some LF /\ system_state s' = DISPLAY_UPDATE
      /\ (system_state s = IDLE \/ system_state s = RECEIVING)).
Proof.
  unfold receiver_task. destruct ch as [c|]; [|intros; simplify_eq; by left].
  case_decide as Hst; [|intros; simplify_eq; by left]. cbn zeta.
  unfold put_received. intros E.
  repeat case_decide;
    repeat match goal with
      | H : (_ ≫= _) = Some _ |- _ =>
          apply bind_Some in H; destruct H as (? & ? & H)
      | H : _ <$> _ = Some _ |- _ =>
          apply fmap_Some in H; destruct H as (? & H & ->)
      end;
    simplify_eq/=; destruct_and?.
  all: try (right; right; by repeat split).
  all: destruct Hst as [Hst|Hst];
    [ right; left; exists c; by repeat split | left; by rewrite Hst ].
Qed.

Lemma display_task_frame s s' out :
  display_task s = Some (s', out) ->
  current_tilt s' = current_tilt s
  /\ last_button_time s' = last_button_time s
  /\ message_buffer s' = message_buffer s
  /\ message_index s' = message_index s
  /\ (system_state s' = system_state s
      \/ (system_state s = DISPLAY_UPDATE /\ system_state s' = IDLE)).
Proof.
  unfold display_task. case_decide; [|intros; simplify_eq; repeat split; by auto].
  cbn zeta. intros E.
  apply bind_Some in E; destruct E as (? & ? & E).
  apply bind_Some in E; destruct E as (? & ? & E).
  simplify_eq/=. repeat split; by auto.
Qed.

Lemma sender_task_frame s s' out :
  sender_task s = Some (s', out) ->
  current_tilt s' = current_tilt s
  /\ last_button_time s' = last_button_time s
  /\ received_buffer s' = received_buffer s
  /\ received_index s' = received_index s
  /\ (system_state s' = system_state s
      \/ (system_state s = SENDING /\ system_state s' = IDLE)).
Proof.
  unfold sender_task. case_decide; [|intros; simplify_eq; repeat split; by auto].
  cbn zeta. intros E.
  apply bind_Some in E; destruct E as (? & ? & E).
  apply bind_Some in E; destruct E as (? & ? & E).
  simplify_eq/=. repeat split; by auto.
Qed.

(** The renderer at work. *)
Lemma display_task_update s :
  inv s -> system_state s = DISPLAY_UPDATE ->
  exists s' shown,
    display_task s
    = Some (s', [clear_display; write_text shown]
                  ++ flat_map morse_playback shown ++ [vTaskDelay_ms 1500])
    /\ cstr (received_buffer s) = Some shown
    /\ system_state s' = IDLE
    /\ received_index s' = 0
    /\ cstr (received_buffer s') = Some []
    /\ inv s'.
Proof.
  intros Hinv Hst.
  pose proof Hinv as (Hl & Hlr & Hr0 & Hrn & Hm0 & Hmn & Hinv').
  rewrite Hst in Hinv'.
  unfold display_task. rewrite decide_True by done.
  destruct (cstr_is_Some _ _ Hrn) as [shown Hshown]. rewrite Hshown.
  cbn [mbind option_bind]. cbn zeta.
  rewrite store_in_bounds by (unfold RECEIVED_BUFFER_SIZE in *; simpl; lia).
  cbn [mbind option_bind].
  do 2 eexists; split; [reflexivity|].
  assert (Hz : (<[Z.to_nat 0 := NUL]> (received_buffer s)) !! 0%nat = Some NUL)
    by (apply list_lookup_insert_eq; unfold RECEIVED_BUFFER_SIZE in *; lia).
  repeat split; try done.
  - exact (cstr_take _ 0 Hz (Forall_nil_2 _)).
  - unfold inv, outbound, RECEIVED_BUFFER_SIZE in *; simpl.
    rewrite length_insert. by repeat split.
Qed.

(** * Runs *)

Lemma run_cons e es s s1 s2 out1 out2 :
  step e s = Some (s1, out1) -> run es s1 = Some (s2, out2) ->
  run (e :: es) s = Some (s2, out1 ++ out2).
Proof. intros E1 E2. cbn [run]. rewrite E1. cbn. by rewrite E2. Qed.

Lemma run_inv_cons e es s s' out :
  run (e :: es) s = Some (s', out) ->
  exists s1 out1 out2,
    step e s = Some (s1, out1) /\ run es s1 = Some (s', out2)
    /\ out = out1 ++ out2.
Proof.
  cbn [run]. intros E.
  destruct (step e s) as [[s1 out1]|] eqn:E1; [|done].
  cbn [mbind option_bind] in E.
  destruct (run es s1) as [[s2 out2]|] eqn:E2; [|done].
  cbn [mbind option_bind] in E. simplify_eq. by eauto 10.
Qed.

Lemma run_total es : forall s,
  inv s -> exists s' out, run es s = Some (s', out) /\ inv s'.
Proof.
  induction es as [|e es IH]; intros s Hinv; [by exists s, []|].
  destruct (inv_step e s Hinv) as (s1 & out1 & E1 & Hinv1).
  destruct (IH s1 Hinv1) as (s2 & out2 & E2 & Hinv2).
  exists s2, (out1 ++ out2). split; [|done]. by eapply run_cons.
Qed.

(** * The transitions of the state machine *)

(** X1.  A step changes [system_state] only along the seven transitions of
    [transition]: a Symbol edge out of IDLE, a Finalize edge out of
    RECORDING, the sender out of SENDING, a received character out of IDLE,
    a received line feed out of IDLE or RECEIVING, the renderer out of
    DISPLAY_UPDATE. *)
Theorem state_changes_by_transition e s s' out :
  step e s = Some (s', out) ->
  system_state s' <> system_state s ->
  transition (system_state s) e (system_state s').
Proof.
  intros E Hne. destruct e as [gpio now|rd|ch| |]; cbn [step] in E.
  - apply fmap_Some in E as (s1 & E & ?); simplify_eq.
    destruct (button_handler_cases _ _ _ _ E)
      as [[?|[(-> & _ & -> & ->)|(-> & _ & -> & -> & _)]] _];
      [done | constructor ..].
  - injection E as E. pose proof (imu_task_frame rd s) as (H & _).
    rewrite E in H. done.
  - apply fmap_Some in E as (s1 & E & ?); simplify_eq.
    destruct (receiver_task_state _ _ _ E)
      as [?|[(c & -> & Hc & -> & ->)|(-> & -> & [-> | ->])]];
      [done | by constructor ..].
  - destruct (display_task_frame _ _ _ E) as (_ & _ & _ & _ & [?|[-> ->]]);
      [done | constructor].
  - destruct (sender_task_frame _ _ _ E) as (_ & _ & _ & _ & [?|[-> ->]]);
      [done | constructor].
Qed.

Lemma state_changes_by_transition_witness :
  step (EButton BUTTON1 2000) one_dot
  = Some (set_system_state SENDING
            (set_last_button_time 2000
               (set_message_index 4
                  (set_message_buffer
                     ("." :: " " :: " " :: LF
                        :: replicate (Z.to_nat MESSAGE_BUFFER_SIZE - 4) NUL)
                     one_dot))), [])
  /\ SENDING <> system_state one_dot
  /\ transition (system_state one_dot) (EButton BUTTON1 2000) SENDING.
Proof.
  assert (E : step (EButton BUTTON1 2000) one_dot
    = Some (set_system_state SENDING
            (set_last_button_time 2000
               (set_message_index 4
                  (set_message_buffer
                     ("." :: " " :: " " :: LF
                        :: replicate (Z.to_nat MESSAGE_BUFFER_SIZE - 4) NUL)
                     one_dot))), [])) by (by vm_compute).
  split; [exact E|]. split; [done|].
  exact (state_changes_by_transition _ _ _ _ E ltac:(done)).
Defined.

(** * The tilt class *)

Lemma tilt_change e s s' out :
  step e s = Some (s', out) ->
  current_tilt s' <> current_tilt s ->
  system_state s = RECORDING
  /\ current_tilt s' <> TILT_UNKNOWN
  /\ exists r, e = EImu (Some r).
Proof.
  intros E Hne. destruct e as [gpio now|rd|ch| |]; cbn [step] in E.
  - apply fmap_Some in E as (s1 & E & ?); simplify_eq.
    by destruct (button_handler_frame _ _ _ _ E) as (? & _).
  - injection E as E. unfold imu_task in E.
    case_decide as Hst; [|by simplify_eq].
    destruct rd as [r|]; [|by simplify_eq]. simplify_eq/=.
    split; [done|]. split; [|by eauto].
    by destruct (ax_lt_left r), (ax_gt_right r).
  - apply fmap_Some in E as (s1 & E & ?); simplify_eq.
    by destruct (receiver_task_frame _ _ _ E) as (? & _).
  - by destruct (display_task_frame _ _ _ E) as (? & _).
  - by destruct (sender_task_frame _ _ _ E) as (? & _).
Qed.

(** X2.  Only a successful classification by [imu_task], taken while
    RECORDING, changes [current_tilt], and never to UNKNOWN: no other step
    touches the tilt class, and a class once known stays known. *)
Theorem tilt_changes_only_by_classifier e s s' out :
  step e s = Some (s', out) ->
  current_tilt s' <> current_tilt s ->
  system_state s = RECORDING
  /\ current_tilt s' <> TILT_UNKNOWN
  /\ exists r, e = EImu (Some r).
Proof. apply tilt_change. Qed.

Lemma tilt_changes_only_by_classifier_witness :
  step (EImu tilted_left) recording_start
  = Some (set_current_tilt TILT_LEFT recording_start, [])
  /\ current_tilt (set_current_tilt TILT_LEFT recording_start)
     <> current_tilt recording_start
  /\ system_state recording_start = RECORDING
  /\ current_tilt (set_current_tilt TILT_LEFT recording_start) <> TILT_UNKNOWN
  /\ exists r, EImu tilted_left = EImu (Some r).
Proof.
  split; [reflexivity|]. split; [done|].
  apply (tilt_changes_only_by_classifier
           (EImu tilted_left) recording_start _ []); [reflexivity | done].
Defined.

Lemma unknown_tilt_step e s s' out :
  step e s = Some (s', out) ->
  current_tilt s = TILT_UNKNOWN ->
  message_index s = 0 -> system_state s <> SENDING ->
  current_tilt s' = TILT_UNKNOWN ->
  message_index s' = 0 /\ system_state s' <> SENDING.
Proof.
  intros E Ht Hi Hst Ht'.
  destruct e as [gpio now|rd|ch| |]; cbn [step] in E.
  - apply fmap_Some in E as (s1 & E & ?); simplify_eq.
    destruct (button_handler_cases _ _ _ _ E) as [Hs Hidx].
    assert (Hns : system_state s1 <> SENDING).
    { destruct Hs as [Hs|[(_ & _ & _ & Hs)|(_ & _ & _ & _ & ?)]];
        [congruence | by rewrite Hs | lia]. }
    split; [|done].
    destruct Hidx as [?|[(_ & ? & _)|(_ & ?)]]; [congruence | done | done].
  - injection E as E. pose proof (imu_task_frame rd s) as (Hs & _ & Hm & _).
    rewrite E in Hs, Hm. cbn in Hs, Hm. split; congruence.
  - apply fmap_Some in E as (s1 & E & ?); simplify_eq.
    destruct (receiver_task_frame _ _ _ E) as (_ & _ & _ & Hm).
    split; [congruence|].
    destruct (receiver_task_state _ _ _ E)
      as [Hs|[(c & _ & _ & _ & Hs)|(_ & Hs & _)]]; by rewrite Hs.
  - destruct (display_task_frame _ _ _ E) as (_ & _ & _ & Hm & Hs).
    split; [congruence|]. destruct Hs as [Hs|[_ Hs]]; by rewrite Hs.
  - rewrite sender_task_idle in E by done. by simplify_eq.
Qed.

Lemma unknown_tilt_reachable s :
  reachable s ->
  current_tilt s = TILT_UNKNOWN ->
  message_index s = 0 /\ system_state s <> SENDING.
Proof.
  intros Hr Ht.
  induction Hr as [|e s s' out _ IH E]; [done|].
  destruct (decide (current_tilt s' = current_tilt s)) as [Heq|Hne].
  - rewrite Ht in Heq. destruct (IH (eq_sym Heq)) as [Hi Hs].
    by apply (unknown_tilt_step e s s' out).
  - by destruct (tilt_change _ _ _ _ E Hne) as (_ & ? & _).
Qed.

(** X3.  As long as the tilt class is UNKNOWN nothing is recorded and
    nothing is sent: in every reachable state with [current_tilt] UNKNOWN
    the outbound message is empty and the state is not SENDING. *)
Theorem nothing_recorded_before_classification s :
  reachable s ->
  current_tilt s = TILT_UNKNOWN ->
  message_index s = 0 /\ outbound s = [] /\ system_state s <> SENDING.
Proof.
  intros Hr Ht. destruct (unknown_tilt_reachable s Hr Ht) as [Hi Hs].
  unfold outbound. by rewrite Hi.
Qed.

Lemma nothing_recorded_before_classification_witness :
  reachable (set_last_button_time 1000 recording_start)
  /\ current_tilt (set_last_button_time 1000 recording_start) = TILT_UNKNOWN
  /\ message_index (set_last_button_time 1000 recording_start) = 0
  /\ outbound (set_last_button_time 1000 recording_start) = []
  /\ system_state (set_last_button_time 1000 recording_start) <> SENDING.
Proof.
  assert (Hr : reachable (set_last_button_time 1000 recording_start)).
  { apply (run_reachable [EButton BUTTON2 1000] init_state _ []
             reachable_init).
    by vm_compute. }
  split; [exact Hr|]. split; [reflexivity|].
  apply nothing_recorded_before_classification; [exact Hr | reflexivity].
Defined.

(** * Without the sensor *)

(** X4.  Without a classification nothing moves a device that is
    RECORDING with the tilt class UNKNOWN and an empty message: a
    button-handler invocation on either pin at any clock, a failed sensor
    read, and a receiver, renderer or sender iteration that starts in such
    a state each leave the state RECORDING, the tilt UNKNOWN, the message
    empty and the inbound buffer as it was; the receiver drops its
    character. *)
Theorem recording_stuck_without_sensor e s s' out :
  sensorless e ->
  step e s = Some (s', out) ->
  system_state s = RECORDING ->
  current_tilt s = TILT_UNKNOWN ->
  message_index s = 0 ->
  system_state s' = RECORDING
  /\ current_tilt s' = TILT_UNKNOWN
  /\ message_index s' = 0
  /\ received_buffer s' = received_buffer s
  /\ received_index s' = received_index s.
Proof.
  intros Hless E Hst Ht Hi.
  destruct e as [gpio now|rd|ch| |]; cbn [step] in E.
  - apply fmap_Some in E as (s1 & E & ?); simplify_eq.
    destruct (button_handler_frame _ _ _ _ E) as (Ht1 & Hb1 & Hi1).
    destruct (button_handler_cases _ _ _ _ E) as [Hs Hidx].
    assert (Hs1 : system_state s1 = RECORDING).
    { destruct Hs as [Hs|[(_ & _ & ? & _)|(_ & _ & _ & _ & ?)]];
        [congruence | congruence | lia]. }
    repeat split; try congruence.
    destruct Hidx as [?|[(_ & ? & _)|(_ & ?)]]; congruence.
  - destruct rd as [r|]; [done|]. injection E as E.
    unfold imu_task in E. rewrite decide_True in E by done. by simplify_eq.
  - apply fmap_Some in E as (s1 & E & ?); simplify_eq.
    destruct ch as [c|]; [|cbn [receiver_task] in E; by simplify_eq].
    rewrite receiver_busy in E by (by rewrite Hst). by simplify_eq.
  - rewrite display_task_idle in E by (by rewrite Hst). by simplify_eq.
  - rewrite sender_task_idle in E by (by rewrite Hst). by simplify_eq.
Qed.


Lemma recording_stuck_without_sensor_witness :
  sensorless (EButton BUTTON1 3000)
  /\ step (EButton BUTTON1 3000) (set_last_button_time 1000 recording_start)
     = Some (set_last_button_time 3000 recording_start, [])
  /\ system_state (set_last_button_time 1000 recording_start) = RECORDING
  /\ current_tilt (set_last_button_time 1000 recording_start) = TILT_UNKNOWN
  /\ message_index (set_last_button_time 1000 recording_start) = 0
  /\ system_state (set_last_button_time 3000 recording_start) = RECORDING
  /\ current_tilt (set_last_button_time 3000 recording_start) = TILT_UNKNOWN
  /\ message_index (set_last_button_time 3000 recording_start) = 0
  /\ received_buffer (set_last_button_time 3000 recording_start)
     = received_buffer (set_last_button_time 1000 recording_start)
  /\ received_index (set_last_button_time 3000 recording_start)
     = received_index (set_last_button_time 1000 recording_start).
Proof.
  assert (E : step (EButton BUTTON1 3000)
                (set_last_button_time 1000 recording_start)
              = Some (set_last_button_time 3000 recording_start, []))
    by (by vm_compute).
  split; [exact I|]. split; [exact E|]. do 3 (split; [reflexivity|]).
  exact (recording_stuck_without_sensor
           (EButton BUTTON1 3000) _ _ _ I E eq_refl eq_refl eq_refl).
Defined.

(** * Back to IDLE *)

Lemma debounced_next s :
  debounced (last_button_time s + DEBOUNCE_MS) s = false.
Proof.
  unfold debounced, to_ms_since_boot, u32. apply bool_decide_eq_false.
  rewrite Zminus_mod_idemp_l.
  replace (last_button_time s + DEBOUNCE_MS - last_button_time s)
    with DEBOUNCE_MS by lia.
  by vm_compute.
Qed.

Lemma finalize_then_send s :
  inv s -> system_state s = RECORDING -> 0 < message_index s ->
  exists s' out,
    run [EButton BUTTON1 (last_button_time s + DEBOUNCE_MS); ESender] s
    = Some (s', out)
    /\ system_state s' = IDLE.
Proof.
  intros Hinv Hst Hi.
  pose proof Hinv as (Hl & _ & _ & _ & _ & _ & Hrec). rewrite Hst in Hrec.
  destruct (finalize_edge_live _ s (debounced_next s) Hst)
    as (s1 & E1 & Hs1 & _); [unfold MESSAGE_BUFFER_SIZE, WORD_LENGTH in *; lia | done |].
  destruct (inv_button BUTTON1 (last_button_time s + DEBOUNCE_MS) s Hinv)
    as (s1' & E1' & Hinv1). simplify_eq.
  destruct (sender_task_sending s1 Hinv1 Hs1) as (s2 & E2 & Hs2 & _).
  do 2 eexists. split; [|exact Hs2].
  eapply run_cons; [cbn [step]; by rewrite E1|].
  eapply run_cons; [exact E2 | reflexivity].
Qed.

Lemma back_to_idle s :
  inv s ->
  exists es s' out,
    (length es <= 4)%nat
    /\ run es s = Some (s', out)
    /\ system_state s' = IDLE.
Proof.
  intros Hinv. destruct (system_state s) eqn:Hst.
  - exists [], s, []. by repeat split; [simpl; lia|..].
  - (* RECORDING *)
    pose proof Hinv as (Hl & _ & _ & _ & Hm0 & _ & Hrec).
    rewrite Hst in Hrec.
    destruct (decide (0 < message_index s)) as [Hpos|Hzero].
    { destruct (finalize_then_send s Hinv Hst Hpos) as (s' & out & E & Hs').
      eexists _, s', out. split; [|by split]. simpl; lia. }
    set (s0 := set_current_tilt TILT_LEFT s).
    assert (E0 : step (EImu tilted_left) s = Some (s0, [])).
    { cbn [step]. unfold imu_task. by rewrite decide_True. }
    assert (Hinv0 : inv s0) by (by apply (inv_ext s)).
    destruct (symbol_edge_live (last_button_time s0 + DEBOUNCE_MS) s0
                (debounced_next s0) (or_intror Hst))
      as (s1 & E1 & Hs1 & _ & Hi1 & _);
      [unfold MESSAGE_BUFFER_SIZE, WORD_LENGTH in *; simpl; lia | done |].
    destruct (inv_button BUTTON2 (last_button_time s0 + DEBOUNCE_MS) s0 Hinv0)
      as (s1' & E1' & Hinv1). simplify_eq.
    destruct (finalize_then_send s1 Hinv1 Hs1) as (s' & out & E & Hs');
      [rewrite Hi1; simpl; lia|].
    exists [EImu tilted_left;
            EButton BUTTON2 (last_button_time s0 + DEBOUNCE_MS);
            EButton BUTTON1 (last_button_time s1 + DEBOUNCE_MS); ESender].
    eexists s', _. split; [|split; [|exact Hs']].
    2: { eapply run_cons; [exact E0|].
         eapply run_cons; [cbn [step]; by rewrite E1 | exact E]. }
    simpl; lia.
  - (* SENDING *)
    destruct (sender_task_sending s Hinv Hst) as (s' & E & Hs' & _).
    eexists [ESender], s', _. split; [simpl; lia|]. split; [|exact Hs'].
    eapply run_cons; [exact E | reflexivity].
  - (* RECEIVING *)
    assert (E1 : step (EReceiver (Some LF)) s
                 = Some (set_system_state DISPLAY_UPDATE s, []))
      by (cbn [step]; by rewrite receiver_line_feed by auto).
    destruct (inv_step (EReceiver (Some LF)) s Hinv)
      as (s1 & out1 & E1' & Hinv1). simplify_eq.
    destruct (display_task_update _ Hinv1 eq_refl)
      as (s' & shown & E2 & _ & Hs' & _).
    eexists [EReceiver (Some LF); EDisplay], s', _.
    split; [simpl; lia|]. split; [|exact Hs'].
    eapply run_cons; [exact E1|]. eapply run_cons; [exact E2 | reflexivity].
  - (* DISPLAY_UPDATE *)
    destruct (display_task_update _ Hinv Hst)
      as (s' & shown & E2 & _ & Hs' & _).
    eexists [EDisplay], s', _. split; [simpl; lia|]. split; [|exact Hs'].
    eapply run_cons; [exact E2 | reflexivity].
Qed.

(** X5.  No reachable state is a dead end when the sensor works: from
    every reachable state at most four steps (a classification, a Symbol
    edge, a Finalize edge, the sender; or a line feed and the renderer)
    bring the system back to IDLE. *)
Theorem idle_is_reachable_again s :
  reachable s ->
  exists es s' out,
    (length es <= 4)%nat
    /\ run es s = Some (s', out)
    /\ system_state s' = IDLE.
Proof. intros Hr. apply back_to_idle. by apply reachable_inv. Qed.

Lemma idle_is_reachable_again_witness :
  reachable (set_last_button_time 1000 recording_start)
  /\ exists es s' out,
      (length es <= 4)%nat
      /\ run es (set_last_button_time 1000 recording_start) = Some (s', out)
      /\ system_state s' = IDLE.
Proof.
  assert (Hr : reachable (set_last_button_time 1000 recording_start)).
  { apply (run_reachable [EButton BUTTON2 1000] init_state _ []
             reachable_init).
    by vm_compute. }
  split; [exact Hr|]. by apply idle_is_reachable_again.
Defined.

(** * The inbound buffer along a run *)

Lemma inbound_ok_ext s s' :
  received_buffer s' = received_buffer s ->
  received_index s' = received_index s ->
  (system_state s' <> RECEIVING -> system_state s' <> DISPLAY_UPDATE ->
   system_state s <> RECEIVING /\ system_state s <> DISPLAY_UPDATE) ->
  inbound_ok s -> inbound_ok s'.
Proof.
  unfold inbound_ok, inbound. intros -> -> Hst (? & ? & H0).
  repeat split; try done. intros Hn1 Hn2. destruct (Hst Hn1 Hn2). by apply H0.
Qed.

Lemma inbound_ok_step e s s' out :
  inv s -> inbound_ok s -> step e s = Some (s', out) -> inbound_ok s'.
Proof.
  intros Hinv Hok E.
  pose proof Hinv as (_ & Hlr & Hr0 & _).
  destruct e as [gpio now|rd|ch| |]; cbn [step] in E.
  - apply fmap_Some in E as (s1 & E & ?); simplify_eq.
    destruct (button_handler_frame _ _ _ _ E) as (_ & Hb & Hi).
    apply (inbound_ok_ext s); try done. intros Hn1 Hn2.
    destruct (button_handler_cases _ _ _ _ E)
      as [[Hs|[(_ & _ & Hs & _)|(_ & _ & Hs & _)]] _];
      rewrite ?Hs in *; by split.
  - injection E as E.
    pose proof (imu_task_frame rd s) as (Hs & _ & _ & Hb & Hi & _).
    rewrite E in Hs, Hb, Hi. cbn in Hs, Hb, Hi.
    apply (inbound_ok_ext s); try done. by rewrite Hs.
  - apply fmap_Some in E as (s1 & E & ?); simplify_eq.
    destruct ch as [c|]; [|cbn [receiver_task] in E; by simplify_eq].
    destruct (decide (system_state s = IDLE \/ system_state s = RECEIVING))
      as [Hst|Hst].
    2: { rewrite receiver_busy in E by tauto. by simplify_eq. }
    destruct Hok as (Hlf & Hle & Hz).
    destruct (decide (c = LF)) as [->|Hc].
    { rewrite receiver_line_feed in E by done. simplify_eq.
      by repeat split. }
    destruct (decide (received_index s < 127)) as [Hi|Hi].
    + destruct (receiver_stores c s Hst Hc (conj Hr0 Hi) Hlr)
        as (s' & E' & Hs' & Ho' & Hi' & _). simplify_eq.
      repeat split; [| lia | by rewrite Hs'].
      rewrite Ho'. apply Forall_app; split; [done|]. by constructor.
    + rewrite receiver_full in E by done. simplify_eq. by repeat split.
  - destruct (decide (system_state s = DISPLAY_UPDATE)) as [Hst|Hst].
    + destruct (display_task_update s Hinv Hst)
        as (s1 & shown & E1 & _ & _ & Hi1 & _). simplify_eq.
      unfold inbound_ok, inbound. rewrite Hi1. by repeat split.
    + rewrite display_task_idle in E by done. by simplify_eq.
  - destruct (sender_task_frame _ _ _ E) as (_ & _ & Hb & Hi & Hs).
    apply (inbound_ok_ext s); try done. intros Hn1 Hn2.
    destruct Hs as [Hs|[Hs _]]; rewrite Hs in *; by split.
Qed.

Lemma reachable_inbound_ok s : reachable s -> inbound_ok s.
Proof.
  induction 1 as [|e s s' out Hr IH E]; [by repeat split|].
  eapply inbound_ok_step; [by apply reachable_inv | done..].
Qed.

Lemma cstr_within (buf : list ascii) : forall (n : nat) shown,
  buf !! n = Some NUL -> cstr buf = Some shown ->
  take n buf = shown \/ exists rest, take n buf = shown ++ NUL :: rest.
Proof.
  induction buf as [|c buf IH]; intros n shown Hn Hc; [done|].
  cbn [cstr] in Hc. case_decide as Hnul.
  { simplify_eq. destruct n as [|n]; [by left|]. right. by eexists. }
  destruct n as [|n]; [by simplify_eq/=|].
  apply fmap_Some in Hc as (shown' & Hc & ->).
  destruct (IH n shown' Hn Hc) as [Ht|[rest Ht]]; cbn [take]; rewrite Ht.
  - by left.
  - right. by exists rest.
Qed.

(** X6.  In every reachable state the inbound buffer is a line in the
    making: its content holds no line feed and at most 127 characters, and
    the array holds a terminated string, the text the renderer would show,
    which is the content up to its first null character. *)
Theorem inbound_is_a_short_line s :
  reachable s ->
  Forall (fun c => c <> LF) (inbound s)
  /\ (length (inbound s) <= 127)%nat
  /\ exists shown,
      cstr (received_buffer s) = Some shown
      /\ Forall (fun c => c <> NUL) shown
      /\ (inbound s = shown \/ exists rest, inbound s = shown ++ NUL :: rest).
Proof.
  intros Hr.
  pose proof (reachable_inv s Hr) as (_ & Hlr & Hr0 & Hrn & _).
  pose proof (reachable_inbound_ok s Hr) as (Hlf & Hle & _).
  split; [done|]. split; [unfold inbound; rewrite length_take; lia|].
  destruct (cstr_is_Some _ _ Hrn) as [shown Hc].
  exists shown. split; [done|]. split.
  - revert Hc. clear. revert shown.
    induction (received_buffer s) as [|c buf IH]; intros shown Hc; [done|].
    cbn [cstr] in Hc. case_decide; [simplify_eq; constructor|].
    apply fmap_Some in Hc as (shown' & Hc & ->). constructor; [done|].
    by apply IH.
  - by apply cstr_within.
Qed.

Lemma inbound_is_a_short_line_witness :
  reachable dot_null_received
  /\ Forall (fun c => c <> LF) (inbound dot_null_received)
  /\ (length (inbound dot_null_received) <= 127)%nat
  /\ exists shown,
      cstr (received_buffer dot_null_received) = Some shown
      /\ Forall (fun c => c <> NUL) shown
      /\ (inbound dot_null_received = shown
          \/ exists rest, inbound dot_null_received = shown ++ NUL :: rest).
Proof.
  assert (Hr : reachable dot_null_received).
  { apply (run_reachable
             [EReceiver (Some "."); EReceiver (Some NUL); EReceiver (Some LF)]
             init_state _ [] reachable_init).
    by vm_compute. }
  split; [exact Hr|]. by apply inbound_is_a_short_line.
Defined.

(** * What the sender prints *)

(** X7.  The line the sender prints for a reachable SENDING state is
    between 1 and 2044 symbol characters (dot, space, dash) followed by two
    spaces and a line feed; the sender leaves the state IDLE and the
    outbound message empty. *)
Theorem sender_line_format s :
  reachable s ->
  system_state s = SENDING ->
  exists s' syms,
    sender_task s
    = Some (s', [printf (syms ++ [" "; " "; LF]); clear_display;
                 write_text (text "Msg sent!")])
    /\ Forall is_symbol syms
    /\ (1 <= length syms <= 2044)%nat
    /\ system_state s' = IDLE
    /\ message_index s' = 0
    /\ cstr (message_buffer s') = Some [].
Proof.
  intros Hr Hst. pose proof (reachable_inv s Hr) as Hinv.
  destruct (sender_task_sending s Hinv Hst) as (s' & E & Hs' & Hi' & Hinv').
  pose proof (inv_bounds s Hinv) as [Hb _].
  pose proof Hinv as (Hl & _ & _ & _ & _ & _ & Hsend). rewrite Hst in Hsend.
  destruct Hsend as (syms & Ho & Hsym & Hne).
  pose proof (outbound_length s) as Hlen. rewrite Ho, length_app in Hlen.
  unfold terminator in *. cbn [length] in Hlen.
  unfold MESSAGE_BUFFER_SIZE in *.
  exists s', syms. rewrite <- Ho. repeat split; try done.
  - destruct syms; [done | simpl; lia].
  - lia.
  - destruct Hinv' as (_ & _ & _ & _ & _ & Hn & _). rewrite Hi' in Hn.
    exact (cstr_take _ 0 Hn (Forall_nil_2 _)).
Qed.

Lemma sender_line_format_witness :
  reachable dot_finalized
  /\ system_state dot_finalized = SENDING
  /\ exists s' syms,
      sender_task dot_finalized
      = Some (s', [printf (syms ++ [" "; " "; LF]); clear_display;
                   write_text (text "Msg sent!")])
      /\ Forall is_symbol syms
      /\ (1 <= length syms <= 2044)%nat
      /\ system_state s' = IDLE
      /\ message_index s' = 0
      /\ cstr (message_buffer s') = Some [].
Proof.
  assert (Hr : reachable dot_finalized).
  { apply (run_reachable
             [EButton BUTTON2 1000; EImu tilted_left; EButton BUTTON2 2000;
              EButton BUTTON1 3000] init_state _ [] reachable_init).
    by vm_compute. }
  split; [exact Hr|]. split; [reflexivity|].
  apply sender_line_format; [exact Hr | reflexivity].
Defined.

(** * What the renderer shows *)

Lemma cstr_prefix_of (buf : list ascii) : forall (n : nat) shown,
  buf !! n = Some NUL -> cstr buf = Some shown ->
  shown `prefix_of` take n buf /\ Forall (fun c => c <> NUL) shown.
Proof.
  induction buf as [|c buf IH]; intros n shown Hn Hc; [done|].
  cbn [cstr] in Hc. case_decide as Hnul.
  { simplify_eq. split; [apply prefix_nil | constructor]. }
  destruct n as [|n]; [by simplify_eq/=|].
  apply fmap_Some in Hc as (rest & Hc & ->).
  destruct (IH n rest Hn Hc) as [Hp Hf].
  split; [by apply prefix_cons | by constructor].
Qed.

Lemma renderer_shows s :
  inv s -> system_state s = DISPLAY_UPDATE ->
  exists s' shown,
    display_task s
    = Some (s', [clear_display; write_text shown]
                  ++ flat_map morse_playback shown ++ [vTaskDelay_ms 1500])
    /\ shown `prefix_of` inbound s
    /\ Forall (fun c => c <> NUL) shown
    /\ (Forall (fun c => c <> NUL) (inbound s) -> shown = inbound s)
    /\ system_state s' = IDLE
    /\ received_index s' = 0
    /\ cstr (received_buffer s') = Some []
    /\ message_buffer s' = message_buffer s
    /\ message_index s' = message_index s
    /\ inv s'.
Proof.
  intros Hinv Hst.
  destruct (display_task_update s Hinv Hst)
    as (s' & shown & E & Hc & Hs' & Hi' & Hc' & Hinv').
  destruct (display_task_frame _ _ _ E) as (_ & _ & Hb & Hm & _).
  pose proof Hinv as (_ & _ & _ & Hn & _).
  destruct (cstr_prefix_of _ _ _ Hn Hc) as [Hp Hf].
  exists s', shown. do 3 (split; [done|]). split.
  { intros Hnn. pose proof (cstr_take _ _ Hn Hnn) as Hc2.
    fold (inbound s) in Hc2. congruence. }
  by do 5 (split; [done|]).
Qed.

(** X8.  In a reachable DISPLAY_UPDATE state the renderer clears the
    display, writes the inbound content up to its first null character
    (the whole content when it holds none), plays it, dwells, and leaves
    the state IDLE with the inbound buffer empty and the outbound buffer
    untouched. *)
Theorem renderer_shows_inbound s :
  reachable s ->
  system_state s = DISPLAY_UPDATE ->
  exists s' shown,
    display_task s
    = Some (s', [clear_display; write_text shown]
                  ++ flat_map morse_playback shown ++ [vTaskDelay_ms 1500])
    /\ Forall (fun c => c <> NUL) shown
    /\ (inbound s = shown \/ exists rest, inbound s = shown ++ NUL :: rest)
    /\ system_state s' = IDLE
    /\ received_index s' = 0
    /\ cstr (received_buffer s') = Some []
    /\ message_buffer s' = message_buffer s
    /\ message_index s' = message_index s.
Proof.
  intros Hr Hst. pose proof (reachable_inv s Hr) as Hinv.
  destruct (display_task_update s Hinv Hst)
    as (s' & shown & E & Hc & Hs' & Hi' & Hc' & _).
  destruct (display_task_frame _ _ _ E) as (_ & _ & Hb & Hm & _).
  pose proof Hinv as (_ & _ & _ & Hn & _).
  destruct (cstr_prefix_of _ _ _ Hn Hc) as [_ Hf].
  pose proof (cstr_within _ _ _ Hn Hc) as Hw.
  exists s', shown. by repeat split.
Qed.

Lemma renderer_shows_inbound_witness :
  reachable dot_null_received
  /\ system_state dot_null_received = DISPLAY_UPDATE
  /\ exists s' shown,
      display_task dot_null_received
      = Some (s', [clear_display; write_text shown]
                    ++ flat_map morse_playback shown ++ [vTaskDelay_ms 1500])
      /\ Forall (fun c => c <> NUL) shown
      /\ (inbound dot_null_received = shown
          \/ exists rest, inbound dot_null_received = shown ++ NUL :: rest)
      /\ system_state s' = IDLE
      /\ received_index s' = 0
      /\ cstr (received_buffer s') = Some []
      /\ message_buffer s' = message_buffer dot_null_received
      /\ message_index s' = message_index dot_null_received.
Proof.
  assert (Hr : reachable dot_null_received).
  { apply (run_reachable
             [EReceiver (Some "."); EReceiver (Some NUL); EReceiver (Some LF)]
             init_state _ [] reachable_init).
    by vm_compute. }
  split; [exact Hr|]. split; [reflexivity|].
  apply renderer_shows_inbound; [exact Hr | reflexivity].
Defined.

(** * From the tilts of one device to the tones of another *)

Lemma playback_of_tilts ts :
  flat_map morse_playback (flat_map symbol_of_tilt ts)
  = flat_map tilt_playback ts.
Proof.
  induction ts as [|t ts IH]; [done|].
  cbn [flat_map]. rewrite flat_map_app, IH. by destruct t.
Qed.

Lemma inv_symbol_edge e s :
  inv s -> exists s', symbol_edge e s = Some s' /\ inv s'.
Proof.
  intros Hinv. unfold symbol_edge. apply inv_button. by apply (inv_ext s).
Qed.

(** Tilts recorded one per accepted Symbol edge. *)
Lemma record_all ts : forall times rest s,
  inv s ->
  system_state s = RECORDING ->
  length times = length ts ->
  Forall (fun t => t <> TILT_UNKNOWN) ts ->
  message_index s + Z.of_nat (length ts) <= MESSAGE_BUFFER_SIZE - WORD_LENGTH ->
  all_accepted (last_button_time s) (times ++ rest) = true ->
  exists s1,
    symbol_edges (zip ts times) s = Some s1
    /\ inv s1
    /\ system_state s1 = RECORDING
    /\ outbound s1 = outbound s ++ flat_map symbol_of_tilt ts
    /\ message_index s1 = message_index s + Z.of_nat (length ts)
    /\ all_accepted (last_button_time s1) rest = true.
Proof.
  induction ts as [|t ts IH]; intros times rest s Hinv Hst Hlen Hts Hroom Hacc.
  { destruct times; [|done]. exists s.
    split; [done|]. split; [done|]. split; [done|].
    split; [by rewrite app_nil_r|]. split; [simpl; lia | done]. }
  destruct times as [|now times]; [done|].
  apply Forall_cons in Hts as [Ht Hts].
  cbn [app all_accepted] in Hacc.
  apply andb_true_iff in Hacc as [Hnow Hacc].
  assert (Hd : debounced now s = false) by (by apply negb_true_iff in Hnow).
  pose proof Hinv as (Hl & _ & _ & _ & Hm0 & _).
  cbn [length] in Hroom.
  destruct (symbol_edge_accepted t now s Hd (or_intror Hst))
    as (s1 & E1 & Hs1 & Ho1 & Hi1 & _ & _ & Ht1); [lia | done |].
  destruct (inv_symbol_edge (t, now) s Hinv) as (s1' & E1' & Hinv1).
  simplify_eq.
  assert (Hone : length (symbol_of_tilt t) = 1%nat) by (by destruct t).
  rewrite Hone in Hi1.
  destruct (IH times rest s1 Hinv1 Hs1) as (s2 & E2 & Hinv2 & Hs2 & Ho2 & Hi2 & Hacc2).
  { cbn [length] in Hlen. lia. } { done. } { lia. } { by rewrite Ht1. }
  exists s2. cbn [zip zip_with symbol_edges]. rewrite E1.
  cbn [mbind option_bind]. split; [exact E2|].
  split; [done|]. split; [done|]. split; [|split; [|done]].
  - rewrite Ho2, Ho1. cbn [flat_map]. by rewrite <- app_assoc.
  - cbn [length]. lia.
Qed.

Lemma receive_all_app a b s :
  receive_all (a ++ b) s = receive_all a s ≫= receive_all b.
Proof.
  revert s. induction a as [|c a IH]; intros s; [done|].
  cbn [app receive_all].
  destruct (receiver_task (Some c) s) as [s1|]; [|done].
  cbn [mbind option_bind]. apply IH.
Qed.

Lemma receive_all_inv cs : forall s s',
  inv s -> receive_all cs s = Some s' -> inv s'.
Proof.
  induction cs as [|c cs IH]; intros s s' Hinv E; cbn [receive_all] in E.
  { by simplify_eq. }
  destruct (inv_receiver (Some c) s Hinv) as (s1 & E1 & Hinv1).
  rewrite E1 in E. cbn [mbind option_bind] in E. by eapply IH.
Qed.

(** A whole line reaches an idle receiver. *)
Lemma receive_line line s :
  inv s -> system_state s = IDLE -> received_index s = 0 ->
  Forall (fun c => c <> LF) line ->
  exists s',
    receive_all (line ++ [LF]) s = Some s'
    /\ inv s'
    /\ system_state s' = DISPLAY_UPDATE
    /\ inbound s' = take 127 line.
Proof.
  intros Hinv Hst Hi Hline.
  pose proof Hinv as (_ & Hlr & _).
  destruct (receive_all_content line s Hline (or_introl Hst))
    as (s1 & E1 & Ho1 & Hs1); [lia | done |].
  pose proof (receive_all_inv _ _ _ Hinv E1) as Hinv1.
  assert (Hst1 : system_state s1 = IDLE \/ system_state s1 = RECEIVING).
  { destruct line; [cbn in E1; simplify_eq; by left|]. right. by apply Hs1; right. }
  rewrite receive_all_app, E1. cbn [mbind option_bind receive_all].
  rewrite receiver_line_feed by done. cbn [mbind option_bind].
  eexists; split; [reflexivity|].
  assert (Hin : inbound s = []) by (unfold inbound; by rewrite Hi).
  rewrite Hin in Ho1. split; [|by split].
  destruct (inv_receiver (Some LF) s1 Hinv1) as (s2 & E2 & Hinv2).
  rewrite receiver_line_feed in E2 by done. by simplify_eq.
Qed.

(** X9.  End to end: tilts recorded one per accepted Symbol edge (at most
    125 of them, none UNKNOWN), finalized, printed by the sender and fed
    to an idle device come out of that device's renderer as the same
    symbols followed by two spaces, played as one short tone per LEFT, one
    long tone per RIGHT and a pause per MIDDLE; both devices end IDLE. *)
Theorem message_end_to_end ts times t_fin s r :
  reachable s -> system_state s = RECORDING -> message_index s = 0 ->
  length times = length ts ->
  (1 <= length ts <= 125)%nat ->
  Forall (fun t => t <> TILT_UNKNOWN) ts ->
  all_accepted (last_button_time s) (times ++ [t_fin]) = true ->
  reachable r -> system_state r = IDLE ->
  exists s1 s2 s3 r1 r2,
    symbol_edges (zip ts times) s = Some s1
    /\ button_handler BUTTON1 t_fin s1 = Some s2
    /\ sender_task s2
       = Some (s3, [printf (flat_map symbol_of_tilt ts ++ [" "; " "; LF]);
                    clear_display; write_text (text "Msg sent!")])
    /\ receive_all (flat_map symbol_of_tilt ts ++ [" "; " "; LF]) r = Some r1
    /\ display_task r1
       = Some (r2, [clear_display;
                    write_text (flat_map symbol_of_tilt ts ++ [" "; " "])]
                     ++ flat_map tilt_playback ts
                     ++ [sleep_ms 700; sleep_ms 700; vTaskDelay_ms 1500])
    /\ system_state s3 = IDLE
    /\ system_state r2 = IDLE.
Proof.
  intros Hr Hst Hi Hlen [Hn1 Hn2] Hts Hacc Hrr Hrst.
  pose proof (reachable_inv s Hr) as Hinv.
  pose proof (reachable_inv r Hrr) as Hinvr.
  assert (Ho : outbound s = []) by (unfold outbound; by rewrite Hi).
  (* recording *)
  destruct (record_all ts times [t_fin] s Hinv Hst Hlen Hts)
    as (s1 & E1 & Hinv1 & Hs1 & Ho1 & Hi1 & Hacc1);
    [unfold MESSAGE_BUFFER_SIZE, WORD_LENGTH; lia | done |].
  rewrite Ho in Ho1. cbn [app] in Ho1. rewrite Hi in Hi1.
  (* finalizing *)
  cbn [all_accepted] in Hacc1. rewrite andb_true_r in Hacc1.
  assert (Hd : debounced t_fin s1 = false) by (by apply negb_true_iff in Hacc1).
  pose proof Hinv1 as (Hl1 & _).
  destruct (finalize_edge_live t_fin s1 Hd Hs1)
    as (s2 & E2 & Hs2 & Ho2 & _); [unfold MESSAGE_BUFFER_SIZE; lia | done |].
  destruct (inv_button BUTTON1 t_fin s1 Hinv1) as (s2' & E2' & Hinv2).
  simplify_eq.
  (* sending *)
  destruct (sender_task_sending s2 Hinv2 Hs2) as (s3 & E3 & Hs3 & _).
  rewrite Ho2, Ho1 in E3. unfold terminator in E3.
  (* receiving *)
  set (syms := flat_map symbol_of_tilt ts) in *.
  assert (Hsyms : Forall is_symbol syms).
  { unfold syms. clear. induction ts as [|t ts IH]; [constructor|].
    cbn [flat_map]. apply Forall_app; split; [apply symbol_of_tilt_symbols | done]. }
  assert (Hlsyms : length syms = length ts).
  { pose proof (outbound_length s1) as Hlo. rewrite Ho1 in Hlo.
    unfold MESSAGE_BUFFER_SIZE in *. lia. }
  set (line := syms ++ [" "; " "]).
  assert (Hline_lf : Forall (fun c => c <> LF) line).
  { apply Forall_app; split; [|by repeat constructor].
    eapply Forall_impl; [exact Hsyms|]. by intros c [-> | [-> | ->]]. }
  assert (Hline_nul : Forall (fun c => c <> NUL) line).
  { apply Forall_app; split; [|by repeat constructor].
    eapply Forall_impl; [exact Hsyms|]. apply is_symbol_not_NUL. }
  assert (Hri : received_index r = 0).
  { destruct (reachable_inbound_ok r Hrr) as (_ & _ & Hz).
    apply Hz; by rewrite Hrst. }
  destruct (receive_line line r Hinvr Hrst Hri Hline_lf)
    as (r1 & Er1 & Hinvr1 & Hsr1 & Hor1).
  rewrite take_ge in Hor1
    by (unfold line; rewrite length_app, Hlsyms; simpl; lia).
  (* rendering *)
  destruct (renderer_shows r1 Hinvr1 Hsr1)
    as (r2 & shown & Er2 & _ & _ & Hshown & Hsr2 & _).
  rewrite Hor1 in Hshown. rewrite (Hshown Hline_nul) in Er2.
  exists s1, s2, s3, r1, r2.
  split; [done|]. split; [done|]. split; [done|].
  split. { unfold line in Er1. by rewrite <- app_assoc in Er1. }
  split; [|done].
  rewrite Er2. unfold line. rewrite flat_map_app.
  unfold syms. rewrite playback_of_tilts. cbn [flat_map].
  by rewrite <- !app_assoc.
Qed.

Lemma message_end_to_end_witness :
  reachable (set_last_button_time 1000 recording_start)
  /\ system_state (set_last_button_time 1000 recording_start) = RECORDING
  /\ message_index (set_last_button_time 1000 recording_start) = 0
  /\ length [2000; 3000; 4000] = length [TILT_LEFT; TILT_RIGHT; TILT_MIDDLE]
  /\ (1 <= length [TILT_LEFT; TILT_RIGHT; TILT_MIDDLE] <= 125)%nat
  /\ Forall (fun t => t <> TILT_UNKNOWN) [TILT_LEFT; TILT_RIGHT; TILT_MIDDLE]
  /\ all_accepted (last_button_time (set_last_button_time 1000 recording_start))
       ([2000; 3000; 4000] ++ [5000]) = true
  /\ reachable init_state
  /\ system_state init_state = IDLE
  /\ exists s1 s2 s3 r1 r2,
      symbol_edges (zip [TILT_LEFT; TILT_RIGHT; TILT_MIDDLE] [2000; 3000; 4000])
                   (set_last_button_time 1000 recording_start) = Some s1
      /\ button_handler BUTTON1 5000 s1 = Some s2
      /\ sender_task s2
         = Some (s3, [printf (flat_map symbol_of_tilt
                                [TILT_LEFT; TILT_RIGHT; TILT_MIDDLE]
                                ++ [" "; " "; LF]);
                      clear_display; write_text (text "Msg sent!")])
      /\ receive_all (flat_map symbol_of_tilt
                        [TILT_LEFT; TILT_RIGHT; TILT_MIDDLE]
                        ++ [" "; " "; LF]) init_state = Some r1
      /\ display_task r1
         = Some (r2, [clear_display;
                      write_text (flat_map symbol_of_tilt
                                    [TILT_LEFT; TILT_RIGHT; TILT_MIDDLE]
                                    ++ [" "; " "])]
                       ++ flat_map tilt_playback
                            [TILT_LEFT; TILT_RIGHT; TILT_MIDDLE]
                       ++ [sleep_ms 700; sleep_ms 700; vTaskDelay_ms 1500])
      /\ system_state s3 = IDLE
      /\ system_state r2 = IDLE.
Proof.
  assert (Hr : reachable (set_last_button_time 1000 recording_start)).
  { apply (run_reachable [EButton BUTTON2 1000] init_state _ []
             reachable_init).
    by vm_compute. }
  assert (Hts : Forall (fun t => t <> TILT_UNKNOWN)
                  [TILT_LEFT; TILT_RIGHT; TILT_MIDDLE])
    by (repeat (apply List.Forall_cons; [done|]); apply List.Forall_nil).
  split; [exact Hr|]. do 3 (split; [reflexivity|]).
  split; [simpl; lia|]. split; [exact Hts|]. split; [by vm_compute|].
  split; [apply reachable_init|]. split; [reflexivity|].
  apply message_end_to_end;
    [exact Hr | reflexivity | reflexivity | reflexivity | simpl; lia
    | exact Hts | by vm_compute | apply reachable_init | reflexivity].
Defined.

(** * The debounce window *)

Lemma wrapped_elapsed t0 t :
  0 <= t - t0 < 4294967296 ->
  u32 (to_ms_since_boot t - to_ms_since_boot t0) = t - t0.
Proof.
  intros H. unfold to_ms_since_boot, u32.
  rewrite <- Zminus_mod. by apply Z.mod_small.
Qed.

Lemma debounced_iff s t0 t :
  last_button_time s = to_ms_since_boot t0 ->
  0 <= t - t0 < 4294967296 ->
  debounced t s = true <-> t - t0 < DEBOUNCE_MS.
Proof.
  intros Hl Ht. unfold debounced. rewrite Hl, wrapped_elapsed by done.
  apply bool_decide_eq_true.
Qed.

(** X10.  The debounce test is right across the roll-over of the 32-bit
    millisecond clock: when the last accepted edge was at clock [t0] and
    less than 2^32 ms have gone by, an edge at clock [t] is ignored
    (nothing changes) if and only if [t - t0 < DEBOUNCE_MS], and otherwise
    the handler records its clock reading. *)
Theorem debounce_across_rollover gpio s t0 t :
  last_button_time s = to_ms_since_boot t0 ->
  0 <= t - t0 < 4294967296 ->
  (debounced t s = true <-> t - t0 < DEBOUNCE_MS)
  /\ (t - t0 < DEBOUNCE_MS -> button_handler gpio t s = Some s)
  /\ (DEBOUNCE_MS <= t - t0 ->
      forall s', button_handler gpio t s = Some s' ->
                 last_button_time s' = to_ms_since_boot t).
Proof.
  intros Hl Ht. pose proof (debounced_iff s t0 t Hl Ht) as Hiff.
  split; [done|]. split.
  - intros Hlt. apply button_debounced. by apply Hiff.
  - intros Hge s' E. rewrite (button_handler_time _ _ _ _ E).
    destruct (debounced t s) eqn:Hd; [|done].
    pose proof (proj1 Hiff eq_refl). lia.
Qed.

Lemma debounce_across_rollover_witness :
  last_button_time (set_last_button_time 4294967196 recording_start)
  = to_ms_since_boot 4294967196
  /\ 0 <= 4294967396 - 4294967196 < 4294967296
  /\ (debounced 4294967396 (set_last_button_time 4294967196 recording_start)
      = true
      <-> 4294967396 - 4294967196 < DEBOUNCE_MS)
  /\ (4294967396 - 4294967196 < DEBOUNCE_MS ->
      button_handler BUTTON2 4294967396
        (set_last_button_time 4294967196 recording_start)
      = Some (set_last_button_time 4294967196 recording_start))
  /\ (DEBOUNCE_MS <= 4294967396 - 4294967196 ->
      forall s',
        button_handler BUTTON2 4294967396
          (set_last_button_time 4294967196 recording_start) = Some s' ->
        last_button_time s' = to_ms_since_boot 4294967396).
Proof.
  split; [reflexivity|]. split; [lia|].
  apply debounce_across_rollover; [reflexivity | lia].
Defined.

(** X11.  One window for both buttons: after an accepted edge on either
    pin, whether or not it had any other effect, every edge on either pin
    during the next DEBOUNCE_MS milliseconds is ignored; the handler
    returns the state unchanged. *)
Theorem window_after_any_accepted_edge g1 g2 t1 t2 s s1 :
  button_handler g1 t1 s = Some s1 ->
  debounced t1 s = false ->
  t1 <= t2 < t1 + DEBOUNCE_MS ->
  button_handler g2 t2 s1 = Some s1.
Proof.
  intros E Hd Ht. apply button_debounced.
  pose proof (button_handler_time _ _ _ _ E) as Hl. rewrite Hd in Hl.
  apply (debounced_iff s1 t1 t2 Hl); unfold DEBOUNCE_MS in *; lia.
Qed.

Lemma window_after_any_accepted_edge_witness :
  button_handler BUTTON1 2000 (set_last_button_time 1000 recording_start)
  = Some (set_last_button_time 2000 recording_start)
  /\ debounced 2000 (set_last_button_time 1000 recording_start) = false
  /\ 2000 <= 2199 < 2000 + DEBOUNCE_MS
  /\ button_handler BUTTON2 2199 (set_last_button_time 2000 recording_start)
     = Some (set_last_button_time 2000 recording_start).
Proof.
  assert (E : button_handler BUTTON1 2000
                (set_last_button_time 1000 recording_start)
              = Some (set_last_button_time 2000 recording_start))
    by (by vm_compute).
  assert (Hd : debounced 2000 (set_last_button_time 1000 recording_start)
               = false) by (by vm_compute).
  assert (Ht : 2000 <= 2199 < 2000 + DEBOUNCE_MS) by (by vm_compute).
  split; [exact E|]. split; [exact Hd|]. split; [exact Ht|].
  exact (window_after_any_accepted_edge BUTTON1 BUTTON2 2000 2199 _ _ E Hd Ht).
Defined.

(** * What arrives while a line is shown *)

Lemma receive_all_busy cs s :
  system_state s <> IDLE -> system_state s <> RECEIVING ->
  receive_all cs s = Some s.
Proof.
  intros H1 H2. induction cs as [|c cs IH]; [done|].
  cbn [receive_all]. by rewrite receiver_busy.
Qed.

(** X12.  A line fed to an idle device ends at its first line feed: the
    device goes to DISPLAY_UPDATE holding the first 127 characters of the
    line, and every character that arrives after the line feed, before the
    renderer has run, is lost. *)
Theorem characters_after_line_feed_are_lost line more s :
  reachable s -> system_state s = IDLE ->
  Forall (fun c => c <> LF) line ->
  exists s',
    receive_all (line ++ LF :: more) s = Some s'
    /\ system_state s' = DISPLAY_UPDATE
    /\ inbound s' = take 127 line
    /\ receive_all (line ++ [LF]) s = Some s'.
Proof.
  intros Hr Hst Hline.
  assert (Hri : received_index s = 0).
  { destruct (reachable_inbound_ok s Hr) as (_ & _ & Hz).
    apply Hz; by rewrite Hst. }
  destruct (receive_line line s (reachable_inv s Hr) Hst Hri Hline)
    as (s' & E & _ & Hs' & Ho').
  exists s'. repeat split; try done.
  change (LF :: more) with ([LF] ++ more).
  rewrite app_assoc, receive_all_app, E. cbn [mbind option_bind].
  apply receive_all_busy; by rewrite Hs'.
Qed.

Lemma characters_after_line_feed_are_lost_witness :
  reachable init_state
  /\ system_state init_state = IDLE
  /\ Forall (fun c => c <> LF) ["."; "-"]
  /\ exists s',
      receive_all (["."; "-"] ++ LF :: ["-"; "-"; LF]) init_state = Some s'
      /\ system_state s' = DISPLAY_UPDATE
      /\ inbound s' = take 127 ["."; "-"]
      /\ receive_all (["."; "-"] ++ [LF]) init_state = Some s'.
Proof.
  assert (Hl : Forall (fun c => c <> LF) ["."; "-"])
    by (repeat (apply List.Forall_cons; [done|]); apply List.Forall_nil).
  split; [apply reachable_init|]. split; [reflexivity|]. split; [exact Hl|].
  apply characters_after_line_feed_are_lost;
    [apply reachable_init | reflexivity | exact Hl].
Defined.

(** * The calibration tool *)

Section CollectorFacts.
Variable F : Collector.float_ops.

(** One press: ignored, a failed read, or one more sample. *)
Lemma collector_press now rd now2 g :
  0 <= Collector.sample_count g < 4294967295 ->
  (bool_decide (u32 (to_ms_since_boot now - Collector.last_button_time g)
                < Collector.DEBOUNCE_MS) = true
   /\ Collector.button_handler F now rd now2 g = (g, []))
  \/ (bool_decide (u32 (to_ms_since_boot now - Collector.last_button_time g)
                   < Collector.DEBOUNCE_MS) = false
      /\ Collector.last_button_time (Collector.button_handler F now rd now2 g).1
         = to_ms_since_boot now
      /\ ((rd = None
           /\ Collector.sample_count (Collector.button_handler F now rd now2 g).1
              = Collector.sample_count g
           /\ Collector.sample_numbers F
                (Collector.button_handler F now rd now2 g).2 = []
           /\ Collector.csv_rows F
                (Collector.button_handler F now rd now2 g).2 = [])
          \/ (exists r,
                rd = Some r
                /\ Collector.sample_count
                     (Collector.button_handler F now rd now2 g).1
                   = Collector.sample_count g + 1
                /\ Collector.sample_numbers F
                     (Collector.button_handler F now rd now2 g).2
                   = [Collector.sample_count g + 1]
                /\ Collector.csv_rows F
                     (Collector.button_handler F now rd now2 g).2
                   = [collector_csv_row F (to_ms_since_boot now2, r)]))).
Proof.
  intros Hc. unfold Collector.button_handler. cbn zeta.
  generalize (to_ms_since_boot now2). generalize (to_ms_since_boot now).
  intros t ts.
  destruct (bool_decide _) eqn:Hd; [by left|]. right.
  split; [done|].
  destruct rd as [r|]; cbn [fst snd Collector.last_button_time].
  - split; [done|]. right. exists r. split; [done|].
    cbn [Collector.sample_count]. unfold u32. rewrite Z.mod_small by lia.
    split; [done|].
    destruct (Collector.flt F (Collector.ax F r) (Collector.minus_0_3 F)),
      (Collector.flt F (Collector.plus_0_3 F) (Collector.ax F r));
      by vm_compute.
  - split; [done|]. left. by vm_compute.
Qed.

Lemma collector_numbers ps : forall g,
  0 <= Collector.sample_count g ->
  Collector.sample_count g + Z.of_nat (length ps) < 4294967296 ->
  Collector.csv_rows F (Collector.press_all F ps g).2
  = map (collector_csv_row F)
        (collector_sampled F (Collector.last_button_time g) ps)
  /\ Collector.sample_numbers F (Collector.press_all F ps g).2
     = map (fun k => Collector.sample_count g + Z.of_nat k)
           (seq 1 (length
                     (collector_sampled F (Collector.last_button_time g) ps)))
  /\ Collector.sample_count (Collector.press_all F ps g).1
     = Collector.sample_count g
       + Z.of_nat (length
                     (collector_sampled F (Collector.last_button_time g) ps)).
Proof.
  induction ps as [|[[now rd] now2] ps IH]; intros g H0 Hlt.
  { cbn. repeat split; try done; lia. }
  cbn [length] in Hlt. cbn [Collector.press_all collector_sampled].
  pose proof (collector_press now rd now2 g ltac:(lia)) as Hp.
  destruct (Collector.button_handler F now rd now2 g) as [g1 out1] eqn:E1.
  cbn [fst snd] in Hp.
  destruct (Collector.press_all F ps g1) as [g2 out2] eqn:E2. cbn [fst snd].
  unfold Collector.sample_numbers, Collector.csv_rows.
  rewrite !flat_map_app.
  fold (Collector.sample_numbers F out1).
  fold (Collector.sample_numbers F out2).
  fold (Collector.csv_rows F out1). fold (Collector.csv_rows F out2).
  destruct Hp as [[Hd Hp]|(Hd & Hl & [(-> & Hc & Hn & Hr)|(r & -> & Hc & Hn & Hr)])];
    rewrite Hd.
  - simplify_eq. destruct (IH g H0 ltac:(lia)) as (Hrow & Hnum & Hcnt).
    rewrite E2 in Hnum, Hrow, Hcnt. by cbn [fst snd] in Hnum, Hrow, Hcnt.
  - destruct (IH g1 ltac:(lia) ltac:(lia)) as (Hrow & Hnum & Hcnt).
    rewrite E2 in Hnum, Hrow, Hcnt. cbn [fst snd] in Hnum, Hrow, Hcnt.
    rewrite Hn, Hr. cbn [app]. by rewrite Hnum, Hrow, Hcnt, Hc, Hl.
  - destruct (IH g1 ltac:(lia) ltac:(lia)) as (Hrow & Hnum & Hcnt).
    rewrite E2 in Hnum, Hrow, Hcnt. cbn [fst snd] in Hnum, Hrow, Hcnt.
    rewrite Hn, Hr, Hnum, Hrow, Hcnt, Hc, Hl.
    cbn [length seq map app]. repeat split; [| lia].
    f_equal.
    rewrite <- (seq_shift _ 1), map_map. apply map_ext. intros k. lia.
Qed.

(** X13.  Over any run of button presses that does not wrap its 32-bit
    counter, the calibration tool prints one CSV row for each press that
    gets past the debounce test and whose sensor read succeeds, in order,
    with the clock read at line 74 and the values read, and no row for any
    other press; the sample numbers printed are the next integers after
    the counter's initial value, one per row, and the counter ends that
    many higher. *)
Theorem collector_samples_numbered ps g :
  0 <= Collector.sample_count g ->
  Collector.sample_count g + Z.of_nat (length ps) < 4294967296 ->
  Collector.csv_rows F (Collector.press_all F ps g).2
  = map (collector_csv_row F)
        (collector_sampled F (Collector.last_button_time g) ps)
  /\ Collector.sample_numbers F (Collector.press_all F ps g).2
     = map (fun k => Collector.sample_count g + Z.of_nat k)
           (seq 1 (length
                     (collector_sampled F (Collector.last_button_time g) ps)))
  /\ Collector.sample_count (Collector.press_all F ps g).1
     = Collector.sample_count g
       + Z.of_nat (length
                     (collector_sampled F (Collector.last_button_time g) ps)).
Proof. apply collector_numbers. Qed.
End CollectorFacts.

Lemma collector_samples_numbered_witness :
  0 <= Collector.sample_count (Collector.Globals 0 0)
  /\ Collector.sample_count (Collector.Globals 0 0)
     + Z.of_nat (length four_presses) < 4294967296
  /\ Collector.csv_rows tenths
       (Collector.press_all tenths four_presses (Collector.Globals 0 0)).2
     = map (collector_csv_row tenths)
           (collector_sampled tenths
              (Collector.last_button_time (Collector.Globals 0 0))
              four_presses)
  /\ Collector.sample_numbers tenths
       (Collector.press_all tenths four_presses (Collector.Globals 0 0)).2
     = map (fun k => Collector.sample_count (Collector.Globals 0 0)
                     + Z.of_nat k)
           (seq 1 (length
                     (collector_sampled tenths
                        (Collector.last_button_time (Collector.Globals 0 0))
                        four_presses)))
  /\ Collector.sample_count
       (Collector.press_all tenths four_presses (Collector.Globals 0 0)).1
     = Collector.sample_count (Collector.Globals 0 0)
       + Z.of_nat (length
                     (collector_sampled tenths
                        (Collector.last_button_time (Collector.Globals 0 0))
                        four_presses)).
Proof.
  split; [by vm_compute|]. split; [by vm_compute|].
  apply collector_samples_numbered; by vm_compute.
Defined.

(** * Room for the terminator *)

(** X14.  The room kept free by WORD_LENGTH is enough: in every reachable
    RECORDING state with at least one symbol, however full the buffer, an
    accepted Finalize edge succeeds; it appends the terminator and the
    state becomes SENDING. *)
Theorem finalize_always_has_room now s :
  reachable s ->
  system_state s = RECORDING ->
  0 < message_index s ->
  debounced now s = false ->
  exists s',
    button_handler BUTTON1 now s = Some s'
    /\ system_state s' = SENDING
    /\ outbound s' = outbound s ++ terminator
    /\ cstr (message_buffer s') = Some (outbound s ++ terminator).
Proof.
  intros Hr Hst Hi Hd. pose proof (reachable_inv s Hr) as Hinv.
  pose proof Hinv as (Hl & _ & _ & _ & _ & _ & Hrec). rewrite Hst in Hrec.
  destruct (finalize_edge_live now s Hd Hst)
    as (s' & E & Hs' & Ho' & _);
    [unfold MESSAGE_BUFFER_SIZE, WORD_LENGTH in *; lia | done |].
  destruct (inv_button BUTTON1 now s Hinv) as (s1 & E1 & Hinv1). simplify_eq.
  exists s'. split; [done|]. split; [done|]. split; [done|].
  rewrite <- Ho'. by apply cstr_sending.
Qed.

Lemma finalize_always_has_room_witness :
  reachable one_dot
  /\ system_state one_dot = RECORDING
  /\ 0 < message_index one_dot
  /\ debounced 2000 one_dot = false
  /\ exists s',
      button_handler BUTTON1 2000 one_dot = Some s'
      /\ system_state s' = SENDING
      /\ outbound s' = outbound one_dot ++ terminator
      /\ cstr (message_buffer s') = Some (outbound one_dot ++ terminator).
Proof.
  assert (Hr : reachable one_dot).
  { apply (run_reachable
             [EButton BUTTON2 500; EImu tilted_left; EButton BUTTON2 1000]
             init_state _ [] reachable_init).
    by vm_compute. }
  split; [exact Hr|]. split; [reflexivity|]. split; [by vm_compute|].
  split; [by vm_compute|].
  apply finalize_always_has_room;
    [exact Hr | reflexivity | by vm_compute | by vm_compute].
Defined.
